(** * Verification of go-runtime-metrics: collector, pull render, push sender

    A shallow embedding of the Go sources:
    - [Collector]  : src/expvar/expvar.go (package collector)
    - [Influxdb]   : the pull render function [Metrics]
    - [RunstatsV1] : src/runstats.go (InfluxDB v1 push sender)
    - [MetricsV2]  : src/pkg/metrics/runstats.go (InfluxDB v2 push sender)
    - [RunLoop]    : [Collector.Run] as a step relation over the select
    - [Pipeline]   : the rendezvous between [onNewPoint] and [statsSender.loop] *)

From Stdlib Require Import ZArith Lia Floats.
From stdpp Require Import base gmap strings list fin_maps.

Open Scope Z_scope.

(** Go integer conversions, written out on [Z]. *)
Module GoInt.
Definition two64 : Z := 2 ^ 64.
Definition two63 : Z := 2 ^ 63.
Definition two32 : Z := 2 ^ 32.
Definition two31 : Z := 2 ^ 31.

(** [int64(x)] for [x : uint64]. *)
Definition int64_of_uint64 (x : Z) : Z :=
  if Z.ltb x two63 then x else x - two64.

(** [int32(x)] for [x : uint32]. *)
Definition int32_of_uint32 (x : Z) : Z :=
  if Z.ltb x two31 then x else x - two32.

(** uint32 addition wraps modulo 2^32. *)
Definition add_u32 (x y : Z) : Z := (x + y) mod two32.

Definition is_u32 (x : Z) : Prop := 0 <= x < two32.
Definition is_u64 (x : Z) : Prop := 0 <= x < two64.
End GoInt.

(** ** package collector (src/expvar/expvar.go) *)
Module Collector.
Import GoInt.

(** [Fields]; Go's [int] is 64 bits wide here. *)
Record Fields := mkFields {
  NumCpu : Z; NumGoroutine : Z; NumCgoCall : Z;
  Alloc : Z; TotalAlloc : Z; Sys : Z; Lookups : Z; Mallocs : Z; Frees : Z;
  HeapAlloc : Z; HeapSys : Z; HeapIdle : Z; HeapInuse : Z;
  HeapReleased : Z; HeapObjects : Z;
  StackInuse : Z; StackSys : Z; MSpanInuse : Z; MSpanSys : Z;
  MCacheInuse : Z; MCacheSys : Z; OtherSys : Z;
  GCSys : Z; NextGC : Z; LastGC : Z; PauseTotalNs : Z; PauseNs : Z;
  NumGC : Z; GCCPUFraction : float;
  Goarch : string; Goos : string; Version : string
}.

(** The zero value of [Fields] (the named result of [CollectStats]). *)
Definition zero_Fields : Fields :=
  mkFields 0 0 0  0 0 0 0 0 0  0 0 0 0 0 0  0 0 0 0 0 0 0
           0 0 0 0 0 0 0%float  "" "" "".

(** The part of [runtime.MemStats] read by [collectMemStats]. All
    counters are uint64 except [m_NumGC] (uint32); [m_PauseNs] is the
    [[256]uint64] circular buffer. *)
Record MemStats := mkMemStats {
  m_Alloc : Z; m_TotalAlloc : Z; m_Sys : Z; m_Lookups : Z; m_Mallocs : Z;
  m_Frees : Z; m_HeapAlloc : Z; m_HeapSys : Z; m_HeapIdle : Z;
  m_HeapInuse : Z; m_HeapReleased : Z; m_HeapObjects : Z;
  m_StackInuse : Z; m_StackSys : Z; m_MSpanInuse : Z; m_MSpanSys : Z;
  m_MCacheInuse : Z; m_MCacheSys : Z; m_OtherSys : Z; m_GCSys : Z;
  m_NextGC : Z; m_LastGC : Z; m_PauseTotalNs : Z;
  m_PauseNs : list Z; m_NumGC : Z; m_GCCPUFraction : float
}.

(** What the [runtime] package reports at the moment of a call. *)
Record Runtime := mkRuntime {
  rt_NumCPU : Z; rt_NumGoroutine : Z; rt_NumCgoCall : Z;
  rt_MemStats : MemStats;
  rt_GOOS : string; rt_GOARCH : string; rt_Version : string
}.

(** Go array indexing [a[i]]: a run-time bounds check, [None] is the
    index-out-of-range panic. *)
Definition array_index (a : list Z) (i : Z) : option Z :=
  if Z.ltb i 0 then None else a !! Z.to_nat i.

(** The index used for [PauseNs]: [(m.NumGC+255)%256] in uint32. *)
Definition pause_index (numGC : Z) : Z := add_u32 numGC 255 mod 256.

Definition collectMemStats (m : MemStats) (f : Fields) : option Fields :=
  match array_index (m_PauseNs m) (pause_index (m_NumGC m)) with
  | None => None
  | Some p =>
    Some {| NumCpu := NumCpu f; NumGoroutine := NumGoroutine f;
            NumCgoCall := NumCgoCall f;
            Alloc := int64_of_uint64 (m_Alloc m);
            TotalAlloc := int64_of_uint64 (m_TotalAlloc m);
            Sys := int64_of_uint64 (m_Sys m);
            Lookups := int64_of_uint64 (m_Lookups m);
            Mallocs := int64_of_uint64 (m_Mallocs m);
            Frees := int64_of_uint64 (m_Frees m);
            HeapAlloc := int64_of_uint64 (m_HeapAlloc m);
            HeapSys := int64_of_uint64 (m_HeapSys m);
            HeapIdle := int64_of_uint64 (m_HeapIdle m);
            HeapInuse := int64_of_uint64 (m_HeapInuse m);
            HeapReleased := int64_of_uint64 (m_HeapReleased m);
            HeapObjects := int64_of_uint64 (m_HeapObjects m);
            StackInuse := int64_of_uint64 (m_StackInuse m);
            StackSys := int64_of_uint64 (m_StackSys m);
            MSpanInuse := int64_of_uint64 (m_MSpanInuse m);
            MSpanSys := int64_of_uint64 (m_MSpanSys m);
            MCacheInuse := int64_of_uint64 (m_MCacheInuse m);
            MCacheSys := int64_of_uint64 (m_MCacheSys m);
            OtherSys := int64_of_uint64 (m_OtherSys m);
            GCSys := int64_of_uint64 (m_GCSys m);
            NextGC := int64_of_uint64 (m_NextGC m);
            LastGC := int64_of_uint64 (m_LastGC m);
            PauseTotalNs := int64_of_uint64 (m_PauseTotalNs m);
            PauseNs := int64_of_uint64 p;
            NumGC := int32_of_uint32 (m_NumGC m);
            GCCPUFraction := m_GCCPUFraction m;
            Goarch := Goarch f; Goos := Goos f; Version := Version f |}
  end.

Definition collectCPUStats (rt : Runtime) (f : Fields) : Fields :=
  {| NumCpu := rt_NumCPU rt; NumGoroutine := rt_NumGoroutine rt;
     NumCgoCall := rt_NumCgoCall rt;
     Alloc := Alloc f; TotalAlloc := TotalAlloc f; Sys := Sys f;
     Lookups := Lookups f; Mallocs := Mallocs f; Frees := Frees f;
     HeapAlloc := HeapAlloc f; HeapSys := HeapSys f; HeapIdle := HeapIdle f;
     HeapInuse := HeapInuse f; HeapReleased := HeapReleased f;
     HeapObjects := HeapObjects f; StackInuse := StackInuse f;
     StackSys := StackSys f; MSpanInuse := MSpanInuse f;
     MSpanSys := MSpanSys f; MCacheInuse := MCacheInuse f;
     MCacheSys := MCacheSys f; OtherSys := OtherSys f; GCSys := GCSys f;
     NextGC := NextGC f; LastGC := LastGC f; PauseTotalNs := PauseTotalNs f;
     PauseNs := PauseNs f; NumGC := NumGC f; GCCPUFraction := GCCPUFraction f;
     Goarch := Goarch f; Goos := Goos f; Version := Version f |}.

(** Writing the three environment fields at the end of [CollectStats]. *)
Definition set_env (rt : Runtime) (f : Fields) : Fields :=
  {| NumCpu := NumCpu f; NumGoroutine := NumGoroutine f;
     NumCgoCall := NumCgoCall f;
     Alloc := Alloc f; TotalAlloc := TotalAlloc f; Sys := Sys f;
     Lookups := Lookups f; Mallocs := Mallocs f; Frees := Frees f;
     HeapAlloc := HeapAlloc f; HeapSys := HeapSys f; HeapIdle := HeapIdle f;
     HeapInuse := HeapInuse f; HeapReleased := HeapReleased f;
     HeapObjects := HeapObjects f; StackInuse := StackInuse f;
     StackSys := StackSys f; MSpanInuse := MSpanInuse f;
     MSpanSys := MSpanSys f; MCacheInuse := MCacheInuse f;
     MCacheSys := MCacheSys f; OtherSys := OtherSys f; GCSys := GCSys f;
     NextGC := NextGC f; LastGC := LastGC f; PauseTotalNs := PauseTotalNs f;
     PauseNs := PauseNs f; NumGC := NumGC f; GCCPUFraction := GCCPUFraction f;
     Goos := rt_GOOS rt; Goarch := rt_GOARCH rt; Version := rt_Version rt |}.

(** The [Collector] struct; the callback and [Done] live in [RunLoop]. *)
Record Collector := mkCollector {
  PauseDur : Z; EnableCPU : bool; EnableMem : bool
}.

(** [New]: the defaults, [PauseDur] in nanoseconds. *)
Definition New : Collector := mkCollector (10 * 1000000000) true true.

(** [CollectStats]; [None] only if the [PauseNs] index panics. *)
Definition CollectStats (c : Collector) (rt : Runtime) : option Fields :=
  let f0 := zero_Fields in
  let f1 := if EnableMem c then collectMemStats (rt_MemStats rt) f0
            else Some f0 in
  match f1 with
  | None => None
  | Some f1 =>
    let f2 := if EnableCPU c then collectCPUStats rt f1 else f1 in
    Some (set_env rt f2)
  end.

(** A Go interface value held in the [Values] map. *)
Inductive Value := VInt (z : Z) | VFloat (x : float).

(** [Fields.Tags]. *)
Definition Tags (f : Fields) : gmap string string :=
  <["go.os" := Goos f]> (<["go.arch" := Goarch f]>
    (<["go.version" := Version f]> ∅)).

(** The key/value pairs of [Fields.Values], in source order. *)
Definition values_list (f : Fields) : list (string * Value) :=
  [("cpu.count", VInt (NumCpu f)); ("cpu.goroutines", VInt (NumGoroutine f));
   ("cpu.cgo_calls", VInt (NumCgoCall f));
   ("mem.alloc", VInt (Alloc f)); ("mem.total", VInt (TotalAlloc f));
   ("mem.sys", VInt (Sys f)); ("mem.lookups", VInt (Lookups f));
   ("mem.malloc", VInt (Mallocs f)); ("mem.frees", VInt (Frees f));
   ("mem.heap.alloc", VInt (HeapAlloc f)); ("mem.heap.sys", VInt (HeapSys f));
   ("mem.heap.idle", VInt (HeapIdle f)); ("mem.heap.inuse", VInt (HeapInuse f));
   ("mem.heap.released", VInt (HeapReleased f));
   ("mem.heap.objects", VInt (HeapObjects f));
   ("mem.stack.inuse", VInt (StackInuse f)); ("mem.stack.sys", VInt (StackSys f));
   ("mem.stack.mspan_inuse", VInt (MSpanInuse f));
   ("mem.stack.mspan_sys", VInt (MSpanSys f));
   ("mem.stack.mcache_inuse", VInt (MCacheInuse f));
   ("mem.stack.mcache_sys", VInt (MCacheSys f));
   ("mem.othersys", VInt (OtherSys f));
   ("mem.gc.pause", VInt (PauseNs f)); ("mem.gc.pause_total", VInt (PauseTotalNs f));
   ("mem.gc.sys", VInt (GCSys f)); ("mem.gc.next", VInt (NextGC f));
   ("mem.gc.last", VInt (LastGC f)); ("mem.gc.count", VInt (NumGC f));
   ("mem.gc.cpu_fraction", VFloat (GCCPUFraction f))].

(** [Fields.Values]. *)
Definition Values (f : Fields) : gmap string Value :=
  list_to_map (values_list f).

(** The JSON encoding of a [Fields] value: one member per field with a
    json tag, in declaration order; the three environment fields carry
    [json:"-"] and are omitted. *)
Definition fields_json (f : Fields) : list (string * Value) :=
  [("cpu.count", VInt (NumCpu f)); ("cpu.goroutines", VInt (NumGoroutine f));
   ("cpu.cgo_calls", VInt (NumCgoCall f));
   ("mem.alloc", VInt (Alloc f)); ("mem.total", VInt (TotalAlloc f));
   ("mem.sys", VInt (Sys f)); ("mem.lookups", VInt (Lookups f));
   ("mem.malloc", VInt (Mallocs f)); ("mem.frees", VInt (Frees f));
   ("mem.heap.alloc", VInt (HeapAlloc f)); ("mem.heap.sys", VInt (HeapSys f));
   ("mem.heap.idle", VInt (HeapIdle f)); ("mem.heap.inuse", VInt (HeapInuse f));
   ("mem.heap.released", VInt (HeapReleased f));
   ("mem.heap.objects", VInt (HeapObjects f));
   ("mem.stack.inuse", VInt (StackInuse f)); ("mem.stack.sys", VInt (StackSys f));
   ("mem.stack.mspan_inuse", VInt (MSpanInuse f));
   ("mem.stack.mspan_sys", VInt (MSpanSys f));
   ("mem.stack.mcache_inuse", VInt (MCacheInuse f));
   ("mem.stack.mcache_sys", VInt (MCacheSys f));
   ("mem.othersys", VInt (OtherSys f));
   ("mem.gc.sys", VInt (GCSys f)); ("mem.gc.next", VInt (NextGC f));
   ("mem.gc.last", VInt (LastGC f)); ("mem.gc.pause_total", VInt (PauseTotalNs f));
   ("mem.gc.pause", VInt (PauseNs f)); ("mem.gc.count", VInt (NumGC f));
   ("mem.gc.cpu_fraction", VFloat (GCCPUFraction f))].

(** The field groups of [Fields]: [cpu.*], [mem.*] and the environment. *)
Definition cpu_part (f : Fields) : list Z := [NumCpu f; NumGoroutine f; NumCgoCall f].

Definition mem_part (f : Fields) : list Z * float :=
  ([Alloc f; TotalAlloc f; Sys f; Lookups f; Mallocs f; Frees f;
    HeapAlloc f; HeapSys f; HeapIdle f; HeapInuse f; HeapReleased f;
    HeapObjects f; StackInuse f; StackSys f; MSpanInuse f; MSpanSys f;
    MCacheInuse f; MCacheSys f; OtherSys f; GCSys f; NextGC f; LastGC f;
    PauseTotalNs f; PauseNs f; NumGC f], GCCPUFraction f).

Definition env_part (f : Fields) : list string := [Goos f; Goarch f; Version f].

(** The json tags of the [Fields] struct, in declaration order. *)
Definition json_tags : list string :=
  ["cpu.count"; "cpu.goroutines"; "cpu.cgo_calls";
   "mem.alloc"; "mem.total"; "mem.sys"; "mem.lookups"; "mem.malloc"; "mem.frees";
   "mem.heap.alloc"; "mem.heap.sys"; "mem.heap.idle"; "mem.heap.inuse";
   "mem.heap.released"; "mem.heap.objects";
   "mem.stack.inuse"; "mem.stack.sys"; "mem.stack.mspan_inuse"; "mem.stack.mspan_sys";
   "mem.stack.mcache_inuse"; "mem.stack.mcache_sys"; "mem.othersys";
   "mem.gc.sys"; "mem.gc.next"; "mem.gc.last"; "mem.gc.pause_total";
   "mem.gc.pause"; "mem.gc.count"; "mem.gc.cpu_fraction"].

(** How the Go runtime fills [MemStats] at the end of a GC cycle
    (runtime/mgc.go, [gcMarkTermination]):
    [pause_ns[numgc%uint32(len(pause_ns))] = pauseNS; numgc++].
    This is the contract behind the documented
    "the most recent pause is at PauseNs[(NumGC+255)%256]". *)
Definition record_gc (m : MemStats) (pause : Z) : MemStats :=
  {| m_Alloc := m_Alloc m; m_TotalAlloc := m_TotalAlloc m; m_Sys := m_Sys m;
     m_Lookups := m_Lookups m; m_Mallocs := m_Mallocs m; m_Frees := m_Frees m;
     m_HeapAlloc := m_HeapAlloc m; m_HeapSys := m_HeapSys m;
     m_HeapIdle := m_HeapIdle m; m_HeapInuse := m_HeapInuse m;
     m_HeapReleased := m_HeapReleased m; m_HeapObjects := m_HeapObjects m;
     m_StackInuse := m_StackInuse m; m_StackSys := m_StackSys m;
     m_MSpanInuse := m_MSpanInuse m; m_MSpanSys := m_MSpanSys m;
     m_MCacheInuse := m_MCacheInuse m; m_MCacheSys := m_MCacheSys m;
     m_OtherSys := m_OtherSys m; m_GCSys := m_GCSys m; m_NextGC := m_NextGC m;
     m_LastGC := m_LastGC m; m_PauseTotalNs := m_PauseTotalNs m;
     m_PauseNs := <[Z.to_nat (m_NumGC m mod 256) := pause]> (m_PauseNs m);
     m_NumGC := add_u32 (m_NumGC m) 1;
     m_GCCPUFraction := m_GCCPUFraction m |}.
End Collector.

(** Outcome of a Go call: a value, or a run-time panic. *)
Inductive PanicKind := NilDeref | IndexOutOfRange.

Inductive Go (A : Type) := Ok (a : A) | Panic (k : PanicKind).
Arguments Ok {A} a.
Arguments Panic {A} k.

Definition go_bind {A B} (m : Go A) (f : A -> Go B) : Go B :=
  match m with Ok a => f a | Panic k => Panic k end.

Notation "'let!' x := m 'in' k" := (go_bind m (fun x => k))
  (at level 200, x name, m at level 100, k at level 200).

(** ** package influxdb: the pull render function *)
Module Influxdb.
Import Collector.

Record Point := mkPoint {
  Name : string; PTags : gmap string string; PValues : Fields
}.

(** [Metrics(measurement)] returns an [expvar.Func]; [render] is one call
    of it under the runtime state [rt]. *)
Definition render (measurement : string) (rt : Runtime) : Go Point :=
  match CollectStats New rt with
  | None => Panic IndexOutOfRange
  | Some v => Ok {| Name := measurement; PTags := Tags v; PValues := v |}
  end.

(** The keys of the JSON object under ["values"]: the json tags of the
    [Fields] struct. *)
Definition json_keys (p : Point) : list string := map fst (fields_json (PValues p)).
End Influxdb.

(** ** [queryDB] (src/runstats.go) *)
Module QueryDB.

(** The outcome of [c.Query(...)]: a transport error, or a response whose
    [Error()] is [resp_err] and whose [Results] are [results]. *)
Inductive QueryOutcome (R E : Type) :=
| QueryFailed (e : E)
| QueryAnswered (resp_err : option E) (results : list R).
Arguments QueryFailed {R E} e.
Arguments QueryAnswered {R E} resp_err results.

(** [queryDB]: the named results [res] and [err]. The [err] of
    [if response, err := c.Query(...); err == nil] is a new variable scoped
    to the [if], so a failed [Query] leaves the named [err] nil. *)
Definition queryDB {R E : Type} (o : QueryOutcome R E) : list R * option E :=
  let res := [] in
  let err := None in
  match o with
  | QueryFailed _ => (res, err)
  | QueryAnswered (Some e) _ => (res, Some e)
  | QueryAnswered None results => (results, err)
  end.
End QueryDB.

(** ** Push sender for InfluxDB v1 (src/runstats.go) *)
Module RunstatsV1.

Definition second : Z := 1000000000.
Definition defaultHost : string := "http://localhost:8086".
Definition defaultMeasurement : string := "go.runtime".
Definition defaultDatabase : string := "stats".
Definition defaultCollectionInterval : Z := 10 * second.
Definition defaultBatchInterval : Z := 60 * second.
Definition defaultPingInterval : Z := 60 * second.

Inductive Logger := LoggerNil | DefaultLogger | CustomLogger.

(** [Config]; durations are [time.Duration] (int64 nanoseconds). *)
Record Config := mkConfig {
  Addr : string; Database : string; Username : string; Password : string;
  Measurement : string; RetentionPolicy : string;
  BatchInterval : Z; PingInterval : Z; Precision : string;
  CollectionInterval : Z; DisableCpu : bool; DisableMem : bool;
  CLogger : Logger
}.

Definition zero_Config : Config :=
  mkConfig "" "" "" "" "" "" 0 0 "" 0 false false LoggerNil.

(** The Go heap of [Config] objects; a [*Config] is [None] (nil) or a
    location. *)
Record Heap := mkHeap { cells : gmap nat Config; next : nat }.
Definition ptr := option nat.

Definition load (h : Heap) (p : ptr) : Go Config :=
  match p with
  | None => Panic NilDeref
  | Some l => match cells h !! l with Some c => Ok c | None => Panic NilDeref end
  end.

Definition store (h : Heap) (p : ptr) (c : Config) : Go Heap :=
  match p with
  | None => Panic NilDeref
  | Some l => Ok (mkHeap (<[l := c]> (cells h)) (next h))
  end.

(** [&Config{}]. *)
Definition alloc (h : Heap) (c : Config) : ptr * Heap :=
  (Some (next h), mkHeap (<[next h := c]> (cells h)) (S (next h))).

(** The field assignments of [init], in source order; [hostname] is the
    result of [os.Hostname()] ([None] for an error). *)
Definition fill (hostname : option string) (c : Config) : Config :=
  let database := if String.eqb (Database c) "" then defaultDatabase else Database c in
  let addr := if String.eqb (Addr c) "" then defaultHost else Addr c in
  let measurement :=
    if String.eqb (Measurement c) "" then
      match hostname with
      | None => String.append defaultMeasurement ".unknown"
      | Some hn => String.append defaultMeasurement (String.append "." hn)
      end
    else Measurement c in
  let ci := if Z.eqb (CollectionInterval c) 0 then defaultCollectionInterval
            else CollectionInterval c in
  let bi := if Z.eqb (BatchInterval c) 0 then defaultBatchInterval
            else BatchInterval c in
  let pi := if Z.eqb (PingInterval c) 0 then defaultPingInterval
            else PingInterval c in
  let lg := match CLogger c with LoggerNil => DefaultLogger | l => l end in
  {| Addr := addr; Database := database; Username := Username c;
     Password := Password c; Measurement := measurement;
     RetentionPolicy := RetentionPolicy c; BatchInterval := bi;
     PingInterval := pi; Precision := Precision c; CollectionInterval := ci;
     DisableCpu := DisableCpu c; DisableMem := DisableMem c; CLogger := lg |}.

(** [func (config *Config) init()]: the receiver [config] is a local copy
    of the caller's pointer; a nil receiver is replaced by a fresh
    [&Config{}] in that local only. The heap after the call is returned. *)
Definition init (hostname : option string) (config : ptr) (h : Heap) : Go Heap :=
  let '(config, h) := match config with
                      | None => alloc h zero_Config
                      | Some l => (Some l, h)
                      end in
  let! c := load h config in
  store h config (fill hostname c).

(** The world outside the process: the client library and the server. *)
Record HTTPConfig := mkHTTPConfig { hAddr : string; hUsername : string; hPassword : string }.

Record Env := mkEnv {
  hostname : option string;
  (** [influxDBClient.NewHTTPClient] accepts this configuration *)
  http_ok : HTTPConfig -> bool;
  (** the server answers a ping *)
  reachable : bool;
  (** what [client.Query] returns for the [CREATE DATABASE] command *)
  create_db : QueryDB.QueryOutcome unit unit;
  (** [influxDBClient.NewBatchPoints] accepts this precision *)
  precision_ok : string -> bool
}.

Inductive Error := ErrCreateClient | ErrPing | ErrBatchPoints.

Inductive LogLine := LogCreateDatabase | LogBatchPoints | LogWrite.

(** [newClient]. [fresh] is the handle a successful [NewHTTPClient]
    returns; [ping_ok] the outcome of [client.Ping]. The results are the
    named results [client] and [err]. The [err] declared by
    [if _, _, err := client.Ping(...); err != nil] is a new variable
    scoped to the [if] statement, so the wrapped ping error is assigned
    to it and not to the named result. *)
Definition newClient (env : Env) (hc : HTTPConfig) (fresh : nat) (ping_ok : bool)
    : option nat * option Error :=
  if negb (http_ok env hc) then (None, Some ErrCreateClient)
  else
    let client := Some fresh in
    let err := None in
    let _if_err := if ping_ok then None else Some ErrPing in
    (client, err).

Definition http_config (c : Config) : HTTPConfig :=
  mkHTTPConfig (Addr c) (Username c) (Password c).

(** The sender as [newStatsSender] leaves it. [s_points] is the
    [BatchPoints] interface value, [None] when nil. *)
Record Sender (P : Type) := mkSender {
  s_client : nat; s_points : option (list P)
}.
Arguments mkSender {P} s_client s_points.
Arguments s_client {P} s.
Arguments s_points {P} s.

(** [newStatsSender] up to starting the ping goroutine; client handle
    [0] is the one created here. The log lines written are returned. *)
Definition newStatsSender {P : Type} (env : Env) (c : Config)
    : Go ((Sender P + Error) * list LogLine) :=
  match newClient env (http_config c) 0 (reachable env) with
  | (_, Some e) => Ok (inr e, [])
  | (None, None) => Panic NilDeref
  | (Some cl, None) =>
    let '(_, err) := QueryDB.queryDB (create_db env) in
    let logs := match err with Some _ => [LogCreateDatabase] | None => [] end in
    if precision_ok env (Precision c) then Ok (inl (mkSender cl (Some [])), logs)
    else Ok (inr ErrBatchPoints, logs ++ [LogBatchPoints])
  end.

(** What [RunCollector] leaves behind: its returned error, whether the
    batch loop and the collector were started, and the log lines. *)
Record RunResult := mkRunResult {
  rc_err : option Error; rc_started : bool; rc_logs : list LogLine
}.

Definition RunCollector (env : Env) (config : ptr) (h : Heap) : Go RunResult :=
  let! h1 := init (hostname env) config h in
  let! c := load h1 config in
  let! r := @newStatsSender unit env c in
  match r with
  | (inr e, logs) => Ok (mkRunResult (Some e) false logs)
  | (inl _, logs) => Ok (mkRunResult None true logs)
  end.
End RunstatsV1.

(** ** Push sender for InfluxDB v2 (src/pkg/metrics/runstats.go) *)
Module MetricsV2.

Definition second : Z := 1000000000.
Definition defaultHost : string := "http://localhost:8086".
Definition defaultMeasurement : string := "go.runtime".
Definition defaultBucket : string := "stats".
Definition defaultCollectionInterval : Z := 10 * second.
(** in ms *)
Definition defaultFlushInterval : Z := 60000.

(** [Config]; [FlushInterval] is a [uint] (milliseconds),
    [CollectionInterval] a [time.Duration]. *)
Record Config := mkConfig {
  Addr : string; AuthToken : string; Org : string; Bucket : string;
  Measurement : string; FlushInterval : Z; CollectionInterval : Z;
  DisableCpu : bool; DisableMem : bool
}.

Definition zero_Config : Config := mkConfig "" "" "" "" "" 0 0 false false.

Record Heap := mkHeap { cells : gmap nat Config; next : nat }.
Definition ptr := option nat.

Definition load (h : Heap) (p : ptr) : Go Config :=
  match p with
  | None => Panic NilDeref
  | Some l => match cells h !! l with Some c => Ok c | None => Panic NilDeref end
  end.

Definition store (h : Heap) (p : ptr) (c : Config) : Go Heap :=
  match p with
  | None => Panic NilDeref
  | Some l => Ok (mkHeap (<[l := c]> (cells h)) (next h))
  end.

Definition fill (hostname : option string) (c : Config) : Config :=
  let bucket := if String.eqb (Bucket c) "" then defaultBucket else Bucket c in
  let addr := if String.eqb (Addr c) "" then defaultHost else Addr c in
  let measurement :=
    if String.eqb (Measurement c) "" then
      match hostname with
      | None => String.append defaultMeasurement ".unknown"
      | Some hn => String.append defaultMeasurement (String.append "." hn)
      end
    else Measurement c in
  let ci := if Z.eqb (CollectionInterval c) 0 then defaultCollectionInterval
            else CollectionInterval c in
  let fi := if Z.eqb (FlushInterval c) 0 then defaultFlushInterval
            else FlushInterval c in
  {| Addr := addr; AuthToken := AuthToken c; Org := Org c; Bucket := bucket;
     Measurement := measurement; FlushInterval := fi; CollectionInterval := ci;
     DisableCpu := DisableCpu c; DisableMem := DisableMem c |}.

(** [init]: on a nil receiver, [*config = Config{}] stores through nil. *)
Definition init (hostname : option string) (config : ptr) (h : Heap) : Go Heap :=
  let! h := match config with
            | None => store h config zero_Config
            | Some _ => Ok h
            end in
  let! c := load h config in
  store h config (fill hostname c).

(** [RunCollector]: [newStatsSender] cannot fail, the error is always nil. *)
Definition RunCollector (hostname : option string) (config : ptr) (h : Heap)
    : Go (option unit) :=
  let! h1 := init hostname config h in
  let! _c := load h1 config in
  Ok None.
End MetricsV2.

(** ** [statsSender.loop] (src/runstats.go): the batch owner *)
Module BatchLoop.
Import RunstatsV1.

Section Loop.
Context {P : Type}.

(** One [select] case taken by the loop: the flush ticker fired (with the
    outcome of [r.client.Write] the sink gives if it is called), or a
    point was received on [r.pc]. *)
Inductive Event := Tick (write_ok : bool) | Recv (pt : P).

(** [points] is [r.points] ([None] when the interface is nil); [writes]
    records every [r.client.Write] call with the batch and its outcome. *)
Record State := mkState {
  points : option (list P);
  writes : list (list P * bool);
  logs : list LogLine
}.

(** Whether [r.newBatch()] succeeds: it depends only on the immutable
    [config.Precision], for which it already succeeded in [newStatsSender]. *)
Variable newBatch_ok : bool.

Definition newBatch : option (list P) := if newBatch_ok then Some [] else None.

Definition step (s : State) (ev : Event) : Go State :=
  match ev with
  | Tick write_ok =>
    match points s with
    | None => Panic NilDeref            (* r.points.Points() on nil *)
    | Some pts =>
      if Nat.eqb (length pts) 0 then Ok s
      else if negb write_ok then
        Ok (mkState (points s) (writes s ++ [(pts, false)]) (logs s ++ [LogWrite]))
      else
        let logs' := if newBatch_ok then logs s else logs s ++ [LogBatchPoints] in
        Ok (mkState newBatch (writes s ++ [(pts, true)]) logs')
    end
  | Recv pt =>
    match points s with
    | None => Ok s
    | Some pts => Ok (mkState (Some (pts ++ [pt])) (writes s) (logs s))
    end
  end.

Fixpoint run (s : State) (evs : list Event) : Go State :=
  match evs with
  | [] => Ok s
  | ev :: evs => let! s' := step s ev in run s' evs
  end.

(** The state right after [newStatsSender] or after a successful flush. *)
Definition fresh : State := mkState (Some []) [] [].

(** The points received, in order. *)
Fixpoint received (evs : list Event) : list P :=
  match evs with
  | [] => []
  | Recv pt :: evs => pt :: received evs
  | Tick _ :: evs => received evs
  end.

(** Every flush attempt in [evs] fails. *)
Fixpoint all_fail (evs : list Event) : Prop :=
  match evs with
  | [] => True
  | Tick true :: _ => False
  | _ :: evs => all_fail evs
  end.

(** The batches successfully written to the sink. *)
Definition delivered (s : State) : list (list P) :=
  map fst (filter (fun w => snd w = true) (writes s)).
End Loop.
Arguments Event : clear implicits.
Arguments State : clear implicits.
End BatchLoop.

(** ** The health-check goroutine of [newStatsSender] (src/runstats.go) *)
Module PingLoop.
Import RunstatsV1.

(** [client] is [sender.client]; handles are numbered, [next_handle] is
    the one the next [NewHTTPClient] returns; [closed] lists the
    [Close] calls and [swaps] the replacements (old, new). *)
Record PState := mkPState {
  client : nat; lastPingError : bool; next_handle : nat;
  closed : list nat; swaps : list (nat * nat)
}.

(** One iteration of [for range time.NewTicker(PingInterval).C], where
    [ping_ok] is the outcome of [sender.client.Ping(3s)]. *)
Definition tick (env : Env) (hc : HTTPConfig) (s : PState) (ping_ok : bool) : PState :=
  if negb ping_ok then
    mkPState (client s) true (next_handle s) (closed s) (swaps s)
  else if lastPingError s then
    match newClient env hc (next_handle s) ping_ok with
    | (Some c, None) =>
      mkPState c false (S (next_handle s)) (closed s ++ [client s])
               (swaps s ++ [(client s, c)])
    | _ => s
    end
  else s.

Definition run (env : Env) (hc : HTTPConfig) (s : PState) (pings : list bool) : PState :=
  fold_left (tick env hc) pings s.

(** Handle [0] was created by [newStatsSender]. *)
Definition start : PState := mkPState 0 false 1 [] [].
End PingLoop.

(** ** [Collector.Run] as a transition system

    [Run] sits in [select { case <-c.Done: return; case <-tickCh: callback }].
    The environment advances the ticker (a [time.Ticker] channel with a
    buffer of one, which drops a tick when the previous one is still
    unreceived) and may close [Done]. When both cases are ready, Go's
    [select] picks one of them at random; the model allows either. The
    callback runs inline, as one step, so it is never interrupted.
    [ticks], [dropped] and [calls_after_done] are ghost counters. *)
Module RunLoop.

Record RState := mkRState {
  done : bool;          (* Done has been closed *)
  pending : bool;       (* tickCh holds a tick *)
  returned : bool;      (* Run has returned *)
  ticks : nat;          (* ticker periods elapsed *)
  dropped : nat;        (* ticks dropped by the ticker *)
  calls : nat;          (* callback invocations *)
  calls_after_done : nat
}.

Definition start : RState := mkRState false false false 0 0 0 0.

Inductive env_step : RState -> RState -> Prop :=
| EnvTick s :
    env_step s (mkRState (done s) true (returned s) (S (ticks s))
                 (if pending s then S (dropped s) else dropped s)
                 (calls s) (calls_after_done s))
| EnvClose s :
    done s = false ->
    env_step s (mkRState true (pending s) (returned s) (ticks s) (dropped s)
                 (calls s) (calls_after_done s)).

Inductive loop_step : RState -> RState -> Prop :=
| SelDone s :
    returned s = false -> done s = true ->
    loop_step s (mkRState (done s) (pending s) true (ticks s) (dropped s)
                  (calls s) (calls_after_done s))
| SelTick s :
    returned s = false -> pending s = true ->
    loop_step s (mkRState (done s) false false (ticks s) (dropped s)
                  (S (calls s))
                  (if done s then S (calls_after_done s) else calls_after_done s)).

Inductive step (s s' : RState) : Prop :=
| StepEnv : env_step s s' -> step s s'
| StepLoop : loop_step s s' -> step s s'.

Definition reachable (s : RState) : Prop := rtc step start s.
End RunLoop.

(** ** [onNewPoint] and [statsSender.loop] in time (src/runstats.go)

    [r.pc] is unbuffered ([make(chan *Point)]): [r.pc <- pt] completes only
    when the batch loop is at its [select]. A flush calls [r.client.Write],
    an HTTP request; the client is built without a [Timeout], so the write
    lasts as long as the server takes ([d] time units, chosen by the sink).
    [waited] counts the time units the current [r.pc <- pt] has been
    blocked. Time is counted only during a write; at the [select] either
    ready case may be taken. *)
Module Pipeline.

Inductive LPhase := AtSelect | Writing (n : nat).

Record PState := mkPState {
  loop : LPhase; sending : option nat; waited : nat; batch : list nat
}.

Definition start : PState := mkPState AtSelect None 0 [].

Inductive pstep : PState -> PState -> Prop :=
(* the Collector calls onNewPoint, which reaches [r.pc <- pt] *)
| SendStart s (pt : nat) :
    sending s = None ->
    pstep s (mkPState (loop s) (Some pt) 0 (batch s))
(* [case pt := <-r.pc]: r.points.AddPoint(pt) *)
| Recv s (pt : nat) :
    loop s = AtSelect -> sending s = Some pt ->
    pstep s (mkPState AtSelect None (waited s) (batch s ++ [pt]))
(* [case <-tickCh] with a non-empty batch: r.client.Write starts *)
| FlushStart s (d : nat) :
    loop s = AtSelect -> batch s <> [] ->
    pstep s (mkPState (Writing d) (sending s) (waited s) (batch s))
(* r.client.Write returns; on success a new batch replaces the old *)
| WriteDone s (ok : bool) :
    loop s = Writing 0 ->
    pstep s (mkPState AtSelect (sending s) (waited s) (if ok then [] else batch s))
(* one time unit of the write elapses *)
| TimePasses s (n : nat) :
    loop s = Writing (S n) ->
    pstep s (mkPState (Writing n) (sending s)
               (match sending s with Some _ => S (waited s) | None => waited s end)
               (batch s)).

Definition reachable (s : PState) : Prop := rtc pstep start s.
End Pipeline.

(** ** How each [RunCollector] configures its [Collector] *)
Module Wiring.

(** src/runstats.go, [RunCollector]: [c := collector.New(sender.onNewPoint)]
    then [PauseDur], [EnableCPU], [EnableMem] are overwritten. *)
Definition collector_v1 (config : RunstatsV1.Config) : Collector.Collector :=
  Collector.mkCollector (RunstatsV1.CollectionInterval config)
    (negb (RunstatsV1.DisableCpu config)) (negb (RunstatsV1.DisableMem config)).

(** src/pkg/metrics/runstats.go, [RunCollector]: the same three fields. *)
Definition collector_v2 (config : MetricsV2.Config) : Collector.Collector :=
  Collector.mkCollector (MetricsV2.CollectionInterval config)
    (negb (MetricsV2.DisableCpu config)) (negb (MetricsV2.DisableMem config)).
End Wiring.

(** * Theorems *)

(** ** The batch loop *)
Section BatchLoopProofs.
Import BatchLoop.
Context {P : Type} (newBatch_ok : bool).

Lemma batch_run_app (s : State P) (evs1 evs2 : list (Event P)) :
  run newBatch_ok s (evs1 ++ evs2) =
  go_bind (run newBatch_ok s evs1) (fun s' => run newBatch_ok s' evs2).
Proof.
  revert s; induction evs1 as [|ev evs1 IH]; intros s; simpl; [done|].
  destruct (step newBatch_ok s ev); simpl; [apply IH|done].
Qed.

Lemma received_app (evs1 evs2 : list (Event P)) :
  received (evs1 ++ evs2) = received evs1 ++ received evs2.
Proof.
  induction evs1 as [|[ok|pt] evs1 IH]; simpl; rewrite ?IH; done.
Qed.

(** While every flush fails, the batch is the old one with every received
    point appended, and nothing is delivered. *)
Lemma batch_failing_prefix (pre : list (Event P)) :
  all_fail pre ->
  forall (s0 : State P) (pts : list P), points s0 = Some pts ->
  exists s, run newBatch_ok s0 pre = Ok s /\
    points s = Some (pts ++ received pre) /\ delivered s = delivered s0.
Proof.
  induction pre as [|[ok|pt] pre IH]; intros Hf s0 pts Hp; simpl in *.
  - exists s0. rewrite app_nil_r. done.
  - destruct ok; [contradiction|]. rewrite Hp.
    destruct (Nat.eqb (length pts) 0); simpl.
    + apply IH; done.
    + destruct (IH Hf (mkState (Some pts) (writes s0 ++ [(pts, false)])
                        (logs s0 ++ [RunstatsV1.LogWrite])) pts eq_refl)
        as (s & Hr & Hps & Hd).
      exists s. split; [done|]. split; [done|].
      rewrite Hd. unfold delivered; simpl. rewrite filter_app. simpl.
      rewrite app_nil_r. done.
  - rewrite Hp. simpl.
    destruct (IH Hf (mkState (Some (pts ++ [pt])) (writes s0) (logs s0))
                (pts ++ [pt]) eq_refl) as (s & Hr & Hps & Hd).
    exists s. rewrite Hr, Hps, <- app_assoc. done.
Qed.
End BatchLoopProofs.

(** C1: starting from a fresh batch (right after construction or after a
    successful flush), if every flush attempt of [pre] fails and at least
    one point arrives, the next successful flush writes exactly the batch
    of all points received since, in order: a failed flush drops nothing.
    Afterwards the loop holds whatever [newBatch] returns. *)
Theorem batch_loop_failed_flush_keeps_points {P : Type} (newBatch_ok : bool)
    (pre : list (BatchLoop.Event P)) :
  BatchLoop.all_fail pre -> BatchLoop.received pre <> [] ->
  exists s, BatchLoop.run newBatch_ok BatchLoop.fresh (pre ++ [BatchLoop.Tick true]) = Ok s /\
    BatchLoop.delivered s = [BatchLoop.received pre] /\
    BatchLoop.points s = BatchLoop.newBatch newBatch_ok.
Proof.
  intros Hf Hne.
  destruct (batch_failing_prefix newBatch_ok pre Hf BatchLoop.fresh [] eq_refl)
    as (s & Hr & Hp & Hd).
  rewrite batch_run_app, Hr. simpl. rewrite Hp. simpl.
  destruct (Nat.eqb (length (BatchLoop.received pre)) 0) eqn:E.
  { apply Nat.eqb_eq, nil_length_inv in E. contradiction. }
  simpl. eexists. split; [reflexivity|]. split; [|done].
  unfold BatchLoop.delivered in *; simpl. rewrite filter_app, map_app, Hd. simpl. done.
Qed.

(** Witness: three points and two failed flushes, then a success. *)
Lemma batch_loop_failed_flush_keeps_points_witness :
  BatchLoop.all_fail [BatchLoop.Recv 1; BatchLoop.Tick false; BatchLoop.Recv 2;
                      BatchLoop.Tick false; BatchLoop.Recv 3] /\
  BatchLoop.run true BatchLoop.fresh
    [BatchLoop.Recv 1; BatchLoop.Tick false; BatchLoop.Recv 2;
     BatchLoop.Tick false; BatchLoop.Recv 3; BatchLoop.Tick true]
  = Ok (BatchLoop.mkState (Some []) [([1], false); ([1; 2], false); ([1; 2; 3], true)]
          [RunstatsV1.LogWrite; RunstatsV1.LogWrite]) /\
  exists s, BatchLoop.run true BatchLoop.fresh
    ([BatchLoop.Recv 1; BatchLoop.Tick false; BatchLoop.Recv 2;
      BatchLoop.Tick false; BatchLoop.Recv 3] ++ [BatchLoop.Tick true]) = Ok s /\
    BatchLoop.delivered s = [[1; 2; 3]] /\ BatchLoop.points s = Some [].
Proof.
  split; [simpl; exact I|]. split; [reflexivity|].
  apply (batch_loop_failed_flush_keeps_points true
           [BatchLoop.Recv 1; BatchLoop.Tick false; BatchLoop.Recv 2;
            BatchLoop.Tick false; BatchLoop.Recv 3]).
  - simpl; exact I.
  - simpl; discriminate.
Defined.

(** ** Startup of the v1 sender *)

(** A configuration with only its zero values, at location [0]. *)
Definition zero_heap_v1 : RunstatsV1.Heap :=
  RunstatsV1.mkHeap {[0%nat := RunstatsV1.zero_Config]} 1.

(** The client library accepts the default address, the server does not
    answer (so the ping and the [Query] of [CREATE DATABASE] fail with a
    transport error), precision is fine. *)
Definition unreachable_env : RunstatsV1.Env :=
  RunstatsV1.mkEnv (Some "host") (fun _ => true) false (QueryDB.QueryFailed tt)
    (fun _ => true).

(** C2: with the sink unreachable, [RunCollector] returns a nil error and
    starts the loops. Nothing is logged either: [queryDB] drops the
    transport error of [CREATE DATABASE] as [newClient] drops the ping's. *)
Theorem runcollector_unreachable_sink_returns_nil :
  RunstatsV1.RunCollector unreachable_env (Some 0%nat) zero_heap_v1 =
  Ok (RunstatsV1.mkRunResult None true []).
Proof. vm_compute. reflexivity. Qed.

(** The ping result never reaches [newClient]'s error result. *)
Lemma newClient_err_ignores_ping (env : RunstatsV1.Env) hc fresh (b1 b2 : bool) :
  RunstatsV1.newClient env hc fresh b1 = RunstatsV1.newClient env hc fresh b2.
Proof. unfold RunstatsV1.newClient. destruct (RunstatsV1.http_ok env hc); done. Qed.

(** ** Nil configuration *)

(** C9: [RunCollector(nil)] panics with a nil dereference in both
    variants. In v1, [init] fills a fresh [Config] that only its local
    receiver points to; the caller's pointer is still nil when
    [newStatsSender] reads [config.Addr]. In v2, [*config = Config{}]
    dereferences nil. *)
Theorem runcollector_nil_config_panics :
  (forall (env : RunstatsV1.Env) (h : RunstatsV1.Heap),
     RunstatsV1.init (RunstatsV1.hostname env) None h =
       Ok (RunstatsV1.mkHeap
             (<[RunstatsV1.next h := RunstatsV1.fill (RunstatsV1.hostname env)
                                       RunstatsV1.zero_Config]>
                (<[RunstatsV1.next h := RunstatsV1.zero_Config]> (RunstatsV1.cells h)))
             (S (RunstatsV1.next h))) /\
     RunstatsV1.RunCollector env None h = Panic NilDeref) /\
  (forall (hn : option string) (h : MetricsV2.Heap),
     MetricsV2.init hn None h = Panic NilDeref /\
     MetricsV2.RunCollector hn None h = Panic NilDeref).
Proof.
  split.
  - intros env h.
    assert (Hi : RunstatsV1.init (RunstatsV1.hostname env) None h =
       Ok (RunstatsV1.mkHeap
             (<[RunstatsV1.next h := RunstatsV1.fill (RunstatsV1.hostname env)
                                       RunstatsV1.zero_Config]>
                (<[RunstatsV1.next h := RunstatsV1.zero_Config]> (RunstatsV1.cells h)))
             (S (RunstatsV1.next h)))).
    { unfold RunstatsV1.init, RunstatsV1.alloc, RunstatsV1.load; simpl.
      rewrite lookup_insert_eq. reflexivity. }
    split; [exact Hi|].
    unfold RunstatsV1.RunCollector. rewrite Hi. reflexivity.
  - intros hn h. split; reflexivity.
Qed.

(** ** Configuration defaults *)

(** A v1 configuration whose [CollectionInterval] is [-1ns]. *)
Definition negative_interval_config : RunstatsV1.Config :=
  RunstatsV1.mkConfig "" "" "" "" "" "" 0 0 "" (-1) false false RunstatsV1.LoggerNil.

(** C3 (as stated): after [init] every duration field is strictly
    positive. It fails: [init] only fills zero fields, a negative
    [time.Duration] is kept. *)
Lemma config_init_durations_positive_fails :
  ~ (forall (hn : option string) (h h' : RunstatsV1.Heap) (l : nat) (c' : RunstatsV1.Config),
       RunstatsV1.init hn (Some l) h = Ok h' ->
       RunstatsV1.cells h' !! l = Some c' ->
       0 < RunstatsV1.CollectionInterval c' /\ 0 < RunstatsV1.BatchInterval c' /\
       0 < RunstatsV1.PingInterval c').
Proof.
  intros H.
  destruct (H None (RunstatsV1.mkHeap {[0%nat := negative_interval_config]} 1)
              (RunstatsV1.mkHeap {[0%nat := RunstatsV1.fill None negative_interval_config]} 1)
              0%nat (RunstatsV1.fill None negative_interval_config)) as [Hc _].
  - vm_compute. reflexivity.
  - vm_compute. reflexivity.
  - vm_compute in Hc. discriminate.
Qed.

Lemma default_or_keep_pos (d dflt : Z) :
  0 < dflt -> 0 <= d -> 0 < (if Z.eqb d 0 then dflt else d).
Proof. intros. destruct (Z.eqb_spec d 0); lia. Qed.

(** C3 (amended): [init] on a non-nil [Config] replaces each zero
    duration by its positive default and keeps every nonzero one; hence
    every duration is strictly positive after [init] whenever none was
    negative. v2's [FlushInterval] is a [uint], so it is always positive. *)
Theorem config_init_durations (hn : option string) :
  (forall (h : RunstatsV1.Heap) (l : nat) (c : RunstatsV1.Config),
     RunstatsV1.cells h !! l = Some c ->
     exists c', RunstatsV1.init hn (Some l) h =
                  Ok (RunstatsV1.mkHeap (<[l := c']> (RunstatsV1.cells h)) (RunstatsV1.next h)) /\
       RunstatsV1.CollectionInterval c' =
         (if Z.eqb (RunstatsV1.CollectionInterval c) 0
          then RunstatsV1.defaultCollectionInterval else RunstatsV1.CollectionInterval c) /\
       RunstatsV1.BatchInterval c' =
         (if Z.eqb (RunstatsV1.BatchInterval c) 0
          then RunstatsV1.defaultBatchInterval else RunstatsV1.BatchInterval c) /\
       RunstatsV1.PingInterval c' =
         (if Z.eqb (RunstatsV1.PingInterval c) 0
          then RunstatsV1.defaultPingInterval else RunstatsV1.PingInterval c) /\
       (0 <= RunstatsV1.CollectionInterval c -> 0 <= RunstatsV1.BatchInterval c ->
        0 <= RunstatsV1.PingInterval c ->
        0 < RunstatsV1.CollectionInterval c' /\ 0 < RunstatsV1.BatchInterval c' /\
        0 < RunstatsV1.PingInterval c')) /\
  (forall (h : MetricsV2.Heap) (l : nat) (c : MetricsV2.Config),
     MetricsV2.cells h !! l = Some c ->
     exists c', MetricsV2.init hn (Some l) h =
                  Ok (MetricsV2.mkHeap (<[l := c']> (MetricsV2.cells h)) (MetricsV2.next h)) /\
       MetricsV2.CollectionInterval c' =
         (if Z.eqb (MetricsV2.CollectionInterval c) 0
          then MetricsV2.defaultCollectionInterval else MetricsV2.CollectionInterval c) /\
       MetricsV2.FlushInterval c' =
         (if Z.eqb (MetricsV2.FlushInterval c) 0
          then MetricsV2.defaultFlushInterval else MetricsV2.FlushInterval c) /\
       (0 <= MetricsV2.FlushInterval c -> 0 < MetricsV2.FlushInterval c') /\
       (0 <= MetricsV2.CollectionInterval c -> 0 < MetricsV2.CollectionInterval c')).
Proof.
  split.
  - intros h l c Hl. exists (RunstatsV1.fill hn c).
    unfold RunstatsV1.init, RunstatsV1.load. simpl. rewrite Hl.
    split; [reflexivity|]. simpl.
    split; [reflexivity|]. split; [reflexivity|]. split; [reflexivity|].
    intros H1 H2 H3. unfold RunstatsV1.defaultCollectionInterval,
      RunstatsV1.defaultBatchInterval, RunstatsV1.defaultPingInterval, RunstatsV1.second in *.
    repeat split; apply default_or_keep_pos; lia.
  - intros h l c Hl. exists (MetricsV2.fill hn c).
    unfold MetricsV2.init, MetricsV2.load. simpl. rewrite Hl.
    split; [reflexivity|]. simpl.
    split; [reflexivity|]. split; [reflexivity|].
    unfold MetricsV2.defaultCollectionInterval, MetricsV2.defaultFlushInterval,
      MetricsV2.second.
    split; intros; apply default_or_keep_pos; lia.
Qed.

(** Witness: the all-zero configuration in both variants. *)
Lemma config_init_durations_witness :
  RunstatsV1.cells zero_heap_v1 !! 0%nat = Some RunstatsV1.zero_Config /\
  MetricsV2.cells (MetricsV2.mkHeap {[0%nat := MetricsV2.zero_Config]} 1) !! 0%nat
    = Some MetricsV2.zero_Config /\
  (exists c', RunstatsV1.init None (Some 0%nat) zero_heap_v1 =
                Ok (RunstatsV1.mkHeap (<[0%nat := c']> (RunstatsV1.cells zero_heap_v1)) 1) /\
     0 < RunstatsV1.CollectionInterval c' /\ 0 < RunstatsV1.BatchInterval c' /\
     0 < RunstatsV1.PingInterval c').
Proof.
  split; [reflexivity|]. split; [reflexivity|].
  destruct (config_init_durations None) as [H1 _].
  destruct (H1 zero_heap_v1 0%nat RunstatsV1.zero_Config eq_refl)
    as (c' & Hi & _ & _ & _ & Hpos).
  exists c'. split; [exact Hi|]. apply Hpos; simpl; lia.
Defined.

(** ** Stats snapshot *)

Lemma pause_index_bound (n : Z) : 0 <= Collector.pause_index n < 256.
Proof. unfold Collector.pause_index. apply Z.mod_pos_bound. lia. Qed.

Lemma collectMemStats_some (m : Collector.MemStats) (f : Collector.Fields) :
  length (Collector.m_PauseNs m) = 256%nat ->
  exists p, Collector.array_index (Collector.m_PauseNs m)
              (Collector.pause_index (Collector.m_NumGC m)) = Some p.
Proof.
  intros Hlen. pose proof (pause_index_bound (Collector.m_NumGC m)) as Hb.
  unfold Collector.array_index.
  destruct (Z.ltb_spec (Collector.pause_index (Collector.m_NumGC m)) 0); [lia|].
  apply lookup_lt_is_Some_2. rewrite Hlen. lia.
Qed.

(** [((n+1) mod 2^32 + 255) mod 2^32 mod 256 = n mod 256]. *)
Lemma pause_index_after_gc (n : Z) :
  Collector.pause_index (GoInt.add_u32 n 1) = n mod 256.
Proof.
  unfold Collector.pause_index, GoInt.add_u32, GoInt.two32.
  assert (Hd : (256 | 2 ^ 32)) by (exists (2 ^ 24); reflexivity).
  rewrite Z.mod_mod_divide by exact Hd.
  rewrite Z.add_mod by lia. rewrite Z.mod_mod_divide by exact Hd.
  rewrite <- Z.add_mod by lia.
  replace (n + 1 + 255) with (n + 1 * 256) by lia.
  apply Z.mod_add. lia.
Qed.

(** C10: the index [(NumGC+255)%256] lies in [0, 256) for every [NumGC],
    so reading the 256-entry [PauseNs] never panics; and after the
    runtime records a GC cycle, the entry read is that cycle's pause. *)
Theorem pause_index_safe_and_latest :
  (forall n : Z, GoInt.is_u32 n -> 0 <= Collector.pause_index n < 256) /\
  (forall (m : Collector.MemStats) (f : Collector.Fields),
     length (Collector.m_PauseNs m) = 256%nat ->
     exists f', Collector.collectMemStats m f = Some f') /\
  (forall (m : Collector.MemStats) (f : Collector.Fields) (pause : Z),
     length (Collector.m_PauseNs m) = 256%nat -> GoInt.is_u32 (Collector.m_NumGC m) ->
     exists f', Collector.collectMemStats (Collector.record_gc m pause) f = Some f' /\
       Collector.PauseNs f' = GoInt.int64_of_uint64 pause /\
       Collector.NumGC f' = GoInt.int32_of_uint32 (GoInt.add_u32 (Collector.m_NumGC m) 1)).
Proof.
  split; [intros n _; apply pause_index_bound|]. split.
  - intros m f Hlen. destruct (collectMemStats_some m f Hlen) as [p Hp].
    unfold Collector.collectMemStats. rewrite Hp. eexists; reflexivity.
  - intros m f pause Hlen Hu. unfold Collector.collectMemStats, Collector.array_index.
    simpl. rewrite pause_index_after_gc.
    assert (Hb : 0 <= Collector.m_NumGC m mod 256 < 256) by (apply Z.mod_pos_bound; lia).
    destruct (Z.ltb_spec (Collector.m_NumGC m mod 256) 0); [lia|].
    rewrite list_lookup_insert_eq by (rewrite Hlen; lia).
    eexists; split; [reflexivity|]. split; reflexivity.
Qed.

(** A runtime state with 256 pause slots. *)
Definition sample_memstats : Collector.MemStats :=
  Collector.mkMemStats 1 2 3 4 5 6 7 8 9 10 11 12 13 14 15 16 17 18 19 20 21 22 23
    (repeat 7 256) 4294967295 0.5%float.

Definition sample_runtime : Collector.Runtime :=
  Collector.mkRuntime 8 12 3 sample_memstats "linux" "amd64" "go1.21".

Lemma pause_index_safe_and_latest_witness :
  GoInt.is_u32 4294967295 /\ 0 <= Collector.pause_index 4294967295 < 256 /\
  length (Collector.m_PauseNs sample_memstats) = 256%nat /\
  exists f', Collector.collectMemStats sample_memstats Collector.zero_Fields = Some f'.
Proof.
  split; [unfold GoInt.is_u32, GoInt.two32; lia|].
  destruct pause_index_safe_and_latest as (H1 & H2 & _).
  split; [apply H1; unfold GoInt.is_u32, GoInt.two32; lia|].
  split; [reflexivity|].
  apply H2. reflexivity.
Defined.

(** C6: for the same runtime state, [CollectStats] with [EnableCPU]
    false leaves the [cpu.*] fields at zero and reads the memory fields
    exactly as a full collection does; with [EnableMem] false the memory
    fields are zero and the [cpu.*] fields are read as usual. The
    environment fields are filled in every case. *)
Theorem collectstats_disabled_group_zero (d : Z) (rt : Collector.Runtime) :
  length (Collector.m_PauseNs (Collector.rt_MemStats rt)) = 256%nat ->
  exists full, Collector.CollectStats (Collector.mkCollector d true true) rt = Some full /\
    (exists f, Collector.CollectStats (Collector.mkCollector d false true) rt = Some f /\
       Collector.cpu_part f = Collector.cpu_part Collector.zero_Fields /\
       Collector.mem_part f = Collector.mem_part full /\
       Collector.env_part f = Collector.env_part full) /\
    (exists f, Collector.CollectStats (Collector.mkCollector d true false) rt = Some f /\
       Collector.mem_part f = Collector.mem_part Collector.zero_Fields /\
       Collector.cpu_part f = Collector.cpu_part full /\
       Collector.env_part f = Collector.env_part full).
Proof.
  intros Hlen.
  destruct (collectMemStats_some (Collector.rt_MemStats rt) Collector.zero_Fields Hlen)
    as [p Hp].
  unfold Collector.CollectStats, Collector.collectMemStats; simpl. rewrite Hp.
  eexists; split; [reflexivity|].
  split; eexists; (split; [reflexivity|]); repeat split.
Qed.

Lemma collectstats_disabled_group_zero_witness :
  length (Collector.m_PauseNs (Collector.rt_MemStats sample_runtime)) = 256%nat /\
  exists full, Collector.CollectStats (Collector.mkCollector 1 true true) sample_runtime = Some full /\
    (exists f, Collector.CollectStats (Collector.mkCollector 1 false true) sample_runtime = Some f /\
       Collector.cpu_part f = Collector.cpu_part Collector.zero_Fields /\
       Collector.mem_part f = Collector.mem_part full /\
       Collector.env_part f = Collector.env_part full) /\
    (exists f, Collector.CollectStats (Collector.mkCollector 1 true false) sample_runtime = Some f /\
       Collector.mem_part f = Collector.mem_part Collector.zero_Fields /\
       Collector.cpu_part f = Collector.cpu_part full /\
       Collector.env_part f = Collector.env_part full).
Proof.
  split; [reflexivity|]. exact (collectstats_disabled_group_zero 1 sample_runtime eq_refl).
Defined.

(** ** Pull render *)

(** The environment fields are filled whatever the flags. *)
Lemma collectstats_some (c : Collector.Collector) (rt : Collector.Runtime) :
  length (Collector.m_PauseNs (Collector.rt_MemStats rt)) = 256%nat ->
  exists v, Collector.CollectStats c rt = Some v /\
    Collector.Goos v = Collector.rt_GOOS rt /\ Collector.Goarch v = Collector.rt_GOARCH rt /\
    Collector.Version v = Collector.rt_Version rt.
Proof.
  intros Hlen.
  destruct (collectMemStats_some (Collector.rt_MemStats rt) Collector.zero_Fields Hlen)
    as [p Hp].
  unfold Collector.CollectStats, Collector.collectMemStats. rewrite Hp.
  destruct (Collector.EnableMem c), (Collector.EnableCPU c);
    eexists; (split; [reflexivity|]); repeat split.
Qed.

(** C7: one call of the render function of [Metrics(measurement)]
    returns a point named [measurement] whose tags map has exactly the
    keys [go.os], [go.arch], [go.version], bound to the runtime's OS,
    architecture and version; the JSON object of its values has one member
    per json tag of [Fields] (29 distinct dotted keys, among them
    [cpu.goroutines], [mem.lookups], [mem.gc.count]), and [Values()] of
    the same snapshot has that key set too. *)
Theorem render_point_keys (measurement : string) (rt : Collector.Runtime) :
  length (Collector.m_PauseNs (Collector.rt_MemStats rt)) = 256%nat ->
  exists p, Influxdb.render measurement rt = Ok p /\
    Influxdb.Name p = measurement /\
    dom (Influxdb.PTags p) = {[ "go.os"; "go.arch"; "go.version" ]} /\
    Influxdb.PTags p !! "go.os" = Some (Collector.rt_GOOS rt) /\
    Influxdb.PTags p !! "go.arch" = Some (Collector.rt_GOARCH rt) /\
    Influxdb.PTags p !! "go.version" = Some (Collector.rt_Version rt) /\
    Influxdb.json_keys p = Collector.json_tags /\
    dom (Collector.Values (Influxdb.PValues p)) = list_to_set Collector.json_tags /\
    length Collector.json_tags = 29%nat /\
    "cpu.goroutines" ∈ Influxdb.json_keys p /\ "mem.lookups" ∈ Influxdb.json_keys p /\
    "mem.gc.count" ∈ Influxdb.json_keys p.
Proof.
  intros Hlen.
  destruct (collectstats_some Collector.New rt Hlen) as (v & Hv & Hos & Harch & Hver).
  unfold Influxdb.render. rewrite Hv.
  eexists; split; [reflexivity|]. cbn [Influxdb.Name Influxdb.PTags Influxdb.PValues].
  assert (Hk : Influxdb.json_keys (Influxdb.mkPoint measurement (Collector.Tags v) v)
               = Collector.json_tags) by reflexivity.
  split; [reflexivity|].
  split; [unfold Collector.Tags; rewrite !dom_insert_L, dom_empty_L; set_solver|].
  split; [unfold Collector.Tags; rewrite lookup_insert_eq; congruence|].
  split; [unfold Collector.Tags; rewrite lookup_insert_ne by discriminate;
          rewrite lookup_insert_eq; congruence|].
  split; [unfold Collector.Tags; rewrite !lookup_insert_ne by discriminate;
          rewrite lookup_insert_eq; congruence|].
  split; [exact Hk|].
  split.
  { unfold Collector.Values. rewrite dom_list_to_map_L.
    assert (E : (Collector.values_list v).*1 = (Collector.values_list Collector.zero_Fields).*1)
      by reflexivity.
    rewrite E. apply (bool_decide_unpack _); vm_compute; reflexivity. }
  split; [reflexivity|].
  rewrite Hk. unfold Collector.json_tags.
  split; [|split]; apply list_elem_of_In; cbn [In];
    repeat (first [left; reflexivity | right]).
Qed.

Lemma render_point_keys_witness :
  length (Collector.m_PauseNs (Collector.rt_MemStats sample_runtime)) = 256%nat /\
  Influxdb.render "test" sample_runtime <> Panic IndexOutOfRange /\
  exists p, Influxdb.render "test" sample_runtime = Ok p /\
    dom (Influxdb.PTags p) = {[ "go.os"; "go.arch"; "go.version" ]} /\
    Influxdb.json_keys p = Collector.json_tags.
Proof.
  split; [reflexivity|]. split; [vm_compute; discriminate|].
  destruct (render_point_keys "test" sample_runtime eq_refl)
    as (p & H1 & _ & H2 & _ & _ & _ & H3 & _).
  exists p. auto.
Defined.

(** ** Health-check loop *)

Lemma ping_run_app (env : RunstatsV1.Env) hc (s : PingLoop.PState) (l1 l2 : list bool) :
  PingLoop.run env hc s (l1 ++ l2) = PingLoop.run env hc (PingLoop.run env hc s l1) l2.
Proof. unfold PingLoop.run. apply fold_left_app. Qed.

(** Failing pings only set [lastPingError]. *)
Lemma ping_run_failures_stable (env : RunstatsV1.Env) hc (c n : nat) cl sw (k : nat) :
  PingLoop.run env hc (PingLoop.mkPState c true n cl sw) (repeat false k) =
  PingLoop.mkPState c true n cl sw.
Proof.
  induction k as [|k IH]; [reflexivity|].
  change (repeat false (S k)) with (false :: repeat false k).
  unfold PingLoop.run in *. simpl. exact IH.
Qed.

Lemma ping_run_failures (env : RunstatsV1.Env) hc (s : PingLoop.PState) (k : nat) :
  (1 <= k)%nat ->
  PingLoop.run env hc s (repeat false k) =
  PingLoop.mkPState (PingLoop.client s) true (PingLoop.next_handle s)
                    (PingLoop.closed s) (PingLoop.swaps s).
Proof.
  intros Hk. destruct k as [|k]; [lia|].
  change (repeat false (S k)) with (false :: repeat false k).
  unfold PingLoop.run. simpl. apply ping_run_failures_stable.
Qed.

(** Successful pings with no earlier failure change nothing. *)
Lemma ping_run_successes (env : RunstatsV1.Env) hc (s : PingLoop.PState) (m : nat) :
  PingLoop.lastPingError s = false ->
  PingLoop.run env hc s (repeat true m) = s.
Proof.
  intros He. induction m as [|m IH]; [reflexivity|].
  change (repeat true (S m)) with (true :: repeat true m).
  unfold PingLoop.run in *. simpl. unfold PingLoop.tick at 2. simpl. rewrite He.
  exact IH.
Qed.

(** C5: starting from the handle made by [newStatsSender], [k >= 1]
    failed pings followed by [m >= 1] successful ones: while the pings
    fail nothing is swapped or closed; after them exactly one new handle
    replaces the old one, and the old handle is closed exactly once.
    [NewHTTPClient] accepted the same address and credentials when the
    sender was built, so the reconnecting [newClient] succeeds. *)
Theorem ping_loop_single_reconnect (env : RunstatsV1.Env) (hc : RunstatsV1.HTTPConfig)
    (k m : nat) :
  RunstatsV1.http_ok env hc = true -> (1 <= k)%nat -> (1 <= m)%nat ->
  (forall j, (j <= k)%nat ->
     PingLoop.swaps (PingLoop.run env hc PingLoop.start (repeat false j)) = [] /\
     PingLoop.closed (PingLoop.run env hc PingLoop.start (repeat false j)) = [] /\
     PingLoop.client (PingLoop.run env hc PingLoop.start (repeat false j)) = 0%nat) /\
  PingLoop.swaps (PingLoop.run env hc PingLoop.start (repeat false k ++ repeat true m))
    = [(0%nat, 1%nat)] /\
  PingLoop.closed (PingLoop.run env hc PingLoop.start (repeat false k ++ repeat true m))
    = [0%nat] /\
  PingLoop.client (PingLoop.run env hc PingLoop.start (repeat false k ++ repeat true m))
    = 1%nat.
Proof.
  intros Hok Hk Hm. split.
  { intros j _. destruct j as [|j]; [done|].
    rewrite ping_run_failures by lia. done. }
  assert (Htick : PingLoop.tick env hc (PingLoop.mkPState 0 true 1 [] []) true =
                  PingLoop.mkPState 1 false 2 [0%nat] [(0%nat, 1%nat)]).
  { unfold PingLoop.tick, RunstatsV1.newClient. rewrite Hok. reflexivity. }
  assert (Hrun : PingLoop.run env hc PingLoop.start (repeat false k ++ repeat true m) =
                 PingLoop.mkPState 1 false 2 [0%nat] [(0%nat, 1%nat)]).
  { rewrite ping_run_app, ping_run_failures by exact Hk.
    destruct m as [|m]; [lia|].
    change (repeat true (S m)) with (true :: repeat true m).
    unfold PingLoop.run at 1. cbn [fold_left]. unfold PingLoop.start.
    cbn [PingLoop.client PingLoop.next_handle PingLoop.closed PingLoop.swaps].
    rewrite Htick.
    apply ping_run_successes. reflexivity. }
  rewrite Hrun. split; [|split]; reflexivity.
Qed.

Definition localhost_http : RunstatsV1.HTTPConfig :=
  RunstatsV1.mkHTTPConfig RunstatsV1.defaultHost "" "".

Lemma ping_loop_single_reconnect_witness :
  RunstatsV1.http_ok unreachable_env localhost_http = true /\
  PingLoop.closed (PingLoop.run unreachable_env localhost_http PingLoop.start
                     [false; false; true; true]) = [0%nat] /\
  PingLoop.swaps (PingLoop.run unreachable_env localhost_http PingLoop.start
                     (repeat false 2 ++ repeat true 2)) = [(0%nat, 1%nat)].
Proof.
  split; [reflexivity|]. split; [reflexivity|].
  apply (ping_loop_single_reconnect unreachable_env localhost_http 2 2); [reflexivity|lia|lia].
Defined.

(** ** [Collector.Run] *)

(** C4 (as stated): once [Done] is closed no callback is invoked. It
    fails: a tick that is pending when [Done] is closed leaves both
    [select] cases ready, and Go may pick the tick. *)
Lemma run_callback_after_done_closed :
  ~ (forall s s' : RunLoop.RState, RunLoop.reachable s -> RunLoop.step s s' ->
       RunLoop.done s = true -> RunLoop.calls s' = RunLoop.calls s).
Proof.
  intros H.
  set (s2 := RunLoop.mkRState true true false 1 0 0 0).
  assert (Hr : RunLoop.reachable s2).
  { unfold RunLoop.reachable.
    eapply rtc_l; [apply RunLoop.StepEnv, (RunLoop.EnvTick RunLoop.start)|].
    eapply rtc_l; [apply RunLoop.StepEnv, RunLoop.EnvClose; reflexivity|].
    apply rtc_refl. }
  assert (Hs : RunLoop.step s2 (RunLoop.mkRState true false false 1 0 1 1)).
  { apply RunLoop.StepLoop, (RunLoop.SelTick s2); reflexivity. }
  specialize (H _ _ Hr Hs eq_refl). discriminate.
Qed.

(** The tick accounting: every elapsed tick was received (one callback),
    is still pending, or was dropped by the ticker. *)
Definition tick_inv (s : RunLoop.RState) : Prop :=
  (RunLoop.calls s + (if RunLoop.pending s then 1 else 0) + RunLoop.dropped s
   = RunLoop.ticks s)%nat /\
  (RunLoop.calls_after_done s <= RunLoop.calls s)%nat.

Lemma tick_inv_step (s s' : RunLoop.RState) :
  RunLoop.step s s' -> tick_inv s -> tick_inv s'.
Proof.
  unfold tick_inv. intros [Hs|Hs] [Hi Hd]; destruct Hs; simpl in *;
    repeat match goal with
           | |- context [if ?b then _ else _] => destruct b
           | H : context [if ?b then _ else _] |- _ => destruct b
           end; try discriminate; lia.
Qed.

Lemma tick_inv_rtc (s s' : RunLoop.RState) :
  rtc RunLoop.step s s' -> tick_inv s -> tick_inv s'.
Proof.
  induction 1 as [|x y z Hxy _ IH]; [done|].
  intros Hx. apply IH, (tick_inv_step x y Hxy Hx).
Qed.

(** C4 (amended): in every reachable state of [Run], the callback has run
    once per tick received, never more often than ticks elapsed (a tick
    arriving while the previous one is unreceived is dropped); no callback
    runs after [Run] returns and [Run] returns only through [Done]; once
    [Done] is closed, an iteration with no pending tick returns, while one
    with a pending tick may still run the callback once. *)
Theorem run_loop_ticks_and_done (s : RunLoop.RState) :
  RunLoop.reachable s ->
  (RunLoop.calls s + (if RunLoop.pending s then 1 else 0) + RunLoop.dropped s
     = RunLoop.ticks s)%nat /\
  (RunLoop.calls s <= RunLoop.ticks s)%nat /\
  (forall s', RunLoop.loop_step s s' -> RunLoop.returned s = false) /\
  (forall s', RunLoop.loop_step s s' -> RunLoop.returned s' = true ->
     RunLoop.done s = true /\ RunLoop.calls s' = RunLoop.calls s) /\
  (forall s', RunLoop.loop_step s s' -> RunLoop.calls s' <> RunLoop.calls s ->
     RunLoop.pending s = true /\ RunLoop.calls s' = S (RunLoop.calls s)) /\
  (RunLoop.done s = true -> RunLoop.pending s = false ->
     forall s', RunLoop.loop_step s s' -> RunLoop.returned s' = true /\
                RunLoop.calls s' = RunLoop.calls s).
Proof.
  intros Hr.
  destruct (tick_inv_rtc RunLoop.start s Hr) as [Hi _]; [split; reflexivity|].
  split; [exact Hi|]. split.
  { destruct (RunLoop.pending s); lia. }
  split; [intros s' Hs; destruct Hs; assumption|].
  split; [intros s' Hs Hret; destruct Hs; simpl in *; [done|discriminate]|].
  split; [intros s' Hs Hne; destruct Hs; simpl in *; [done|done]|].
  intros Hd Hp s' Hs. destruct Hs; simpl in *; [done|congruence].
Qed.

(** Witness: three ticks, each received before the next, give three calls. *)
Lemma run_loop_ticks_and_done_witness :
  RunLoop.reachable (RunLoop.mkRState false false false 3 0 3 0) /\
  (3 + 0 + 0 = 3)%nat.
Proof.
  assert (Hr : RunLoop.reachable (RunLoop.mkRState false false false 3 0 3 0)).
  { unfold RunLoop.reachable.
    eapply rtc_l; [apply RunLoop.StepEnv, (RunLoop.EnvTick RunLoop.start)|].
    eapply rtc_l; [apply RunLoop.StepLoop, RunLoop.SelTick; reflexivity|].
    eapply rtc_l; [apply RunLoop.StepEnv, RunLoop.EnvTick|].
    eapply rtc_l; [apply RunLoop.StepLoop, RunLoop.SelTick; reflexivity|].
    eapply rtc_l; [apply RunLoop.StepEnv, RunLoop.EnvTick|].
    eapply rtc_l; [apply RunLoop.StepLoop, RunLoop.SelTick; reflexivity|].
    apply rtc_refl. }
  split; [exact Hr|].
  exact (proj1 (run_loop_ticks_and_done _ Hr)).
Defined.

(** ** [onNewPoint] against an in-progress flush *)

(** While the loop writes, a pending send waits one unit per unit of
    write time. *)
Lemma pipeline_wait_during_write (n j w : nat) (pt : nat) (b : list nat) :
  rtc Pipeline.pstep (Pipeline.mkPState (Pipeline.Writing (n + j)) (Some pt) w b)
                     (Pipeline.mkPState (Pipeline.Writing j) (Some pt) (w + n) b).
Proof.
  revert w; induction n as [|n IH]; intros w.
  - rewrite Nat.add_0_r. apply rtc_refl.
  - eapply rtc_l; [apply (Pipeline.TimePasses _ (n + j)); reflexivity|]. simpl.
    replace (w + S n)%nat with (S w + n)%nat by lia. apply IH.
Qed.

(** C8: no bound [B] limits how long the v1 [onNewPoint] blocks the
    Collector: [r.pc <- pt] on the unbuffered channel waits while the batch
    loop is inside [r.client.Write], and a write that takes [B+1] units
    keeps the send blocked for [B+1] units. *)
Lemma onNewPoint_block_unbounded :
  ~ (exists B : nat, forall s, Pipeline.reachable s -> (Pipeline.waited s <= B)%nat).
Proof.
  intros [B HB].
  assert (Hr : Pipeline.reachable
                 (Pipeline.mkPState (Pipeline.Writing 0) (Some 2%nat) (S B) [1%nat])).
  { unfold Pipeline.reachable.
    eapply rtc_l; [apply (Pipeline.SendStart Pipeline.start 1); reflexivity|].
    eapply rtc_l; [apply Pipeline.Recv; reflexivity|].
    eapply rtc_l; [apply (Pipeline.FlushStart _ (S B)); [reflexivity|discriminate]|].
    eapply rtc_l; [apply (Pipeline.SendStart _ 2); reflexivity|]. simpl.
    pose proof (pipeline_wait_during_write (S B) 0 0 2 [1%nat]) as H.
    rewrite Nat.add_0_r in H. exact H. }
  specialize (HB _ Hr). simpl in HB. lia.
Qed.

(** * Further properties of the code *)

(** ** Batch loop *)

Definition current_batch {P : Type} (s : BatchLoop.State P) : list P :=
  match BatchLoop.points s with Some b => b | None => [] end.

Lemma batch_no_loss_gen {P : Type} (evs : list (BatchLoop.Event P)) :
  forall (s0 : BatchLoop.State P) (b0 : list P), BatchLoop.points s0 = Some b0 ->
  exists s, BatchLoop.run true s0 evs = Ok s /\ BatchLoop.points s <> None /\
    concat (BatchLoop.delivered s) ++ current_batch s =
    concat (BatchLoop.delivered s0) ++ b0 ++ BatchLoop.received evs.
Proof.
  induction evs as [|[ok|pt] evs IH]; intros s0 b0 Hp; simpl.
  - exists s0. unfold current_batch. rewrite Hp, app_nil_r. split; [done|]. split; congruence.
  - rewrite Hp. destruct (Nat.eqb (length b0) 0) eqn:E; simpl.
    + apply IH; exact Hp.
    + destruct ok; simpl.
      * destruct (IH (BatchLoop.mkState (Some []) (BatchLoop.writes s0 ++ [(b0, true)])
                        (BatchLoop.logs s0)) [] eq_refl) as (s & Hr & Hn & Hc).
        exists s. split; [exact Hr|]. split; [exact Hn|]. rewrite Hc.
        unfold BatchLoop.delivered; simpl. rewrite filter_app, map_app, concat_app.
        simpl. rewrite !app_nil_r, <- app_assoc. reflexivity.
      * destruct (IH (BatchLoop.mkState (Some b0) (BatchLoop.writes s0 ++ [(b0, false)])
                        (BatchLoop.logs s0 ++ [RunstatsV1.LogWrite])) b0 eq_refl)
          as (s & Hr & Hn & Hc).
        exists s. split; [exact Hr|]. split; [exact Hn|]. rewrite Hc.
        unfold BatchLoop.delivered; simpl. rewrite filter_app, map_app. simpl.
        rewrite app_nil_r. reflexivity.
  - rewrite Hp. simpl.
    destruct (IH (BatchLoop.mkState (Some (b0 ++ [pt])) (BatchLoop.writes s0)
                    (BatchLoop.logs s0)) (b0 ++ [pt]) eq_refl) as (s & Hr & Hn & Hc).
    exists s. split; [exact Hr|]. split; [exact Hn|]. rewrite Hc.
    unfold BatchLoop.delivered; simpl. rewrite <- !app_assoc. reflexivity.
Qed.

(** X1: when [newBatch] succeeds, the loop never panics on any sequence of
    ticks and points, and the batches written successfully, followed by the
    current batch, are exactly the points received, in order: nothing is
    lost or duplicated. *)
Theorem batch_loop_no_loss {P : Type} (evs : list (BatchLoop.Event P)) :
  exists s, BatchLoop.run true BatchLoop.fresh evs = Ok s /\
    BatchLoop.points s <> None /\
    concat (BatchLoop.delivered s) ++ current_batch s = BatchLoop.received evs.
Proof.
  destruct (batch_no_loss_gen evs BatchLoop.fresh [] eq_refl) as (s & Hr & Hn & Hc).
  exists s. split; [exact Hr|]. split; [exact Hn|]. rewrite Hc. reflexivity.
Qed.

Lemma batch_writes_nonempty_gen {P : Type} (nb : bool) (evs : list (BatchLoop.Event P)) :
  forall (s0 s : BatchLoop.State P),
  (forall w, In w (BatchLoop.writes s0) -> fst w <> []) ->
  BatchLoop.run nb s0 evs = Ok s ->
  forall w, In w (BatchLoop.writes s) -> fst w <> [].
Proof.
  induction evs as [|ev evs IH]; intros s0 s H0 Hr; simpl in Hr.
  - injection Hr as <-. exact H0.
  - destruct (BatchLoop.step nb s0 ev) as [s1|k] eqn:E; simpl in Hr; [|discriminate].
    apply (IH s1 s); [|exact Hr].
    destruct ev as [ok|pt]; simpl in E.
    + destruct (BatchLoop.points s0) as [b|]; [|discriminate].
      destruct (Nat.eqb (length b) 0) eqn:L; simpl in E.
      { injection E as <-. exact H0. }
      assert (Hb : b <> []) by (intros ->; discriminate).
      destruct ok; simpl in E; injection E as <-; simpl;
        intros w Hw; apply in_app_or in Hw as [Hw|[<-|[]]]; auto.
    + destruct (BatchLoop.points s0); injection E as <-; exact H0.
Qed.

(** X2: the loop never calls [r.client.Write] with an empty batch. *)
Theorem batch_loop_never_writes_empty {P : Type} (nb : bool)
    (evs : list (BatchLoop.Event P)) (s : BatchLoop.State P) :
  BatchLoop.run nb BatchLoop.fresh evs = Ok s ->
  forall w, In w (BatchLoop.writes s) -> fst w <> [].
Proof.
  intros Hr. apply (batch_writes_nonempty_gen nb evs BatchLoop.fresh s); [|exact Hr].
  intros w [].
Qed.

Lemma batch_loop_never_writes_empty_witness :
  BatchLoop.run true BatchLoop.fresh
    [BatchLoop.Tick true; BatchLoop.Recv 5%nat; BatchLoop.Tick true] =
    Ok (BatchLoop.mkState (Some []) [([5%nat], true)] []) /\
  (forall w, In w [([5%nat], true)] -> fst w <> []).
Proof.
  split; [reflexivity|].
  exact (batch_loop_never_writes_empty true
           [BatchLoop.Tick true; BatchLoop.Recv 5%nat; BatchLoop.Tick true]
           (BatchLoop.mkState (Some []) [([5%nat], true)] []) eq_refl).
Defined.

(** X3: if [newBatch] fails after a successful flush, [r.points] becomes
    nil: every later point is silently dropped, and the next tick panics,
    since [r.points.Points()] is evaluated before the [r.points == nil]
    check. *)
Theorem batch_loop_nil_batch_after_newBatch_error {P : Type}
    (s : BatchLoop.State P) (b : list P) :
  BatchLoop.points s = Some b -> b <> [] ->
  exists s', BatchLoop.step false s (BatchLoop.Tick true) = Ok s' /\
    BatchLoop.points s' = None /\
    BatchLoop.delivered s' = BatchLoop.delivered s ++ [b] /\
    (forall pt evs, BatchLoop.run false s' (BatchLoop.Recv pt :: evs) =
                    BatchLoop.run false s' evs) /\
    (forall ok, BatchLoop.step false s' (BatchLoop.Tick ok) = Panic NilDeref).
Proof.
  intros Hp Hb. simpl. rewrite Hp.
  destruct (Nat.eqb (length b) 0) eqn:L.
  { apply Nat.eqb_eq, nil_length_inv in L. contradiction. }
  simpl. eexists. split; [reflexivity|]. split; [reflexivity|].
  split; [unfold BatchLoop.delivered; simpl; rewrite filter_app, map_app; reflexivity|].
  split; reflexivity.
Qed.

Lemma batch_loop_nil_batch_after_newBatch_error_witness :
  BatchLoop.run false BatchLoop.fresh
    [BatchLoop.Recv 1%nat; BatchLoop.Tick true; BatchLoop.Recv 2%nat; BatchLoop.Tick true]
    = Panic NilDeref /\
  exists s', BatchLoop.step false (BatchLoop.mkState (Some [1%nat]) [] [])
               (BatchLoop.Tick true) = Ok s' /\
    BatchLoop.points s' = None.
Proof.
  split; [reflexivity|].
  destruct (batch_loop_nil_batch_after_newBatch_error
              (BatchLoop.mkState (Some [1%nat]) [] []) [1%nat] eq_refl ltac:(discriminate))
    as (s' & H1 & H2 & _).
  exists s'. split; assumption.
Defined.

(** ** Health-check loop *)

Definition handle_inv (s : PingLoop.PState) : Prop :=
  (PingLoop.client s < PingLoop.next_handle s)%nat /\
  Forall (fun x => x < PingLoop.client s)%nat (PingLoop.closed s) /\
  NoDup (PingLoop.closed s) /\
  PingLoop.closed s = map fst (PingLoop.swaps s) /\
  Forall (fun sw => fst sw < snd sw)%nat (PingLoop.swaps s).

Lemma handle_inv_tick (env : RunstatsV1.Env) hc (s : PingLoop.PState) (b : bool) :
  handle_inv s -> handle_inv (PingLoop.tick env hc s b).
Proof.
  intros (Hn & Hlt & Hnd & Hcl & Hsw). unfold PingLoop.tick.
  destruct b; simpl; [|repeat split; assumption].
  destruct (PingLoop.lastPingError s); [|repeat split; assumption].
  unfold RunstatsV1.newClient.
  destruct (RunstatsV1.http_ok env hc); simpl; [|repeat split; assumption].
  repeat split; simpl.
  - lia.
  - apply Forall_app. split; [|constructor; [lia|constructor]].
    eapply Forall_impl; [exact Hlt|]. simpl. intros; lia.
  - apply NoDup_app. split; [exact Hnd|]. split; [|apply NoDup_singleton].
    intros x Hx Hx'. apply list_elem_of_singleton in Hx'. subst x.
    rewrite Forall_forall in Hlt. apply Hlt in Hx. lia.
  - rewrite map_app, Hcl. reflexivity.
  - apply Forall_app. split; [exact Hsw|]. constructor; [simpl; lia|constructor].
Qed.

(** X4: along any sequence of ping outcomes, the handle in use has never
    been closed, no handle is closed twice, every closed handle is exactly
    the old handle of a swap, and each swap installs a newer handle. *)
Theorem ping_loop_handle_invariant (env : RunstatsV1.Env) (hc : RunstatsV1.HTTPConfig)
    (pings : list bool) :
  let s := PingLoop.run env hc PingLoop.start pings in
  (PingLoop.client s ∉ PingLoop.closed s) /\ NoDup (PingLoop.closed s) /\
  PingLoop.closed s = map fst (PingLoop.swaps s) /\
  Forall (fun sw => fst sw < snd sw)%nat (PingLoop.swaps s).
Proof.
  assert (H : forall s0, handle_inv s0 -> handle_inv (PingLoop.run env hc s0 pings)).
  { unfold PingLoop.run. induction pings as [|b pings IH]; intros s0 H0; [exact H0|].
    simpl. apply IH, handle_inv_tick, H0. }
  destruct (H PingLoop.start) as (_ & Hlt & Hnd & Hcl & Hsw).
  { repeat split; simpl; try lia; constructor. }
  simpl. split; [|split; [exact Hnd|split; assumption]].
  intros Hin. rewrite Forall_forall in Hlt. apply Hlt in Hin. lia.
Qed.

Fixpoint count_failures (pings : list bool) : nat :=
  match pings with
  | [] => 0
  | b :: pings => (if b then 0 else 1) + count_failures pings
  end.

Lemma tick_swaps_le (env : RunstatsV1.Env) hc (s : PingLoop.PState) (b : bool) :
  (length (PingLoop.swaps (PingLoop.tick env hc s b)) +
   (if PingLoop.lastPingError (PingLoop.tick env hc s b) then 1 else 0) <=
   length (PingLoop.swaps s) + (if PingLoop.lastPingError s then 1 else 0) +
   (if b then 0 else 1))%nat.
Proof.
  destruct s as [c lpe nh cl sw]; unfold PingLoop.tick; simpl.
  destruct b, lpe; simpl; try lia.
  unfold RunstatsV1.newClient. destruct (RunstatsV1.http_ok env hc); simpl; try lia.
  rewrite length_app. simpl. lia.
Qed.

Lemma ping_swaps_le_gen (env : RunstatsV1.Env) hc (pings : list bool) :
  forall s0,
  (length (PingLoop.swaps (PingLoop.run env hc s0 pings)) +
   (if PingLoop.lastPingError (PingLoop.run env hc s0 pings) then 1 else 0) <=
   length (PingLoop.swaps s0) + (if PingLoop.lastPingError s0 then 1 else 0) +
   count_failures pings)%nat.
Proof.
  unfold PingLoop.run.
  induction pings as [|b pings IH]; intros s0; simpl; [lia|].
  specialize (IH (PingLoop.tick env hc s0 b)).
  pose proof (tick_swaps_le env hc s0 b). lia.
Qed.

(** X5: the health-check loop never reconnects more often than pings have
    failed: a reconnect needs a failure since the previous one, so with all
    pings succeeding the handle is never replaced. *)
Theorem ping_loop_swaps_bounded_by_failures (env : RunstatsV1.Env)
    (hc : RunstatsV1.HTTPConfig) (pings : list bool) :
  (length (PingLoop.swaps (PingLoop.run env hc PingLoop.start pings))
     <= count_failures pings)%nat.
Proof. pose proof (ping_swaps_le_gen env hc pings PingLoop.start). simpl in *. lia. Qed.

(** ** Startup of the v1 sender *)

(** X6: for a non-nil configuration, [RunCollector] returns an error only
    when [NewHTTPClient] rejects the resolved address and credentials
    ([ErrCreateClient]) or [NewBatchPoints] rejects the precision
    ([ErrBatchPoints]); it never returns a ping error, and it starts the
    loops exactly when it returns nil. A [CREATE DATABASE] error is only
    logged, and only when the server answered the query with an error. *)
Theorem runcollector_v1_outcome (env : RunstatsV1.Env) (h : RunstatsV1.Heap) (l : nat)
    (c : RunstatsV1.Config) :
  RunstatsV1.cells h !! l = Some c ->
  exists r, RunstatsV1.RunCollector env (Some l) h = Ok r /\
    RunstatsV1.rc_err r =
      (if RunstatsV1.http_ok env (RunstatsV1.http_config (RunstatsV1.fill (RunstatsV1.hostname env) c))
       then if RunstatsV1.precision_ok env (RunstatsV1.Precision c) then None
            else Some RunstatsV1.ErrBatchPoints
       else Some RunstatsV1.ErrCreateClient) /\
    (RunstatsV1.rc_started r = true <-> RunstatsV1.rc_err r = None) /\
    (In RunstatsV1.LogCreateDatabase (RunstatsV1.rc_logs r) ->
       exists e rs, RunstatsV1.create_db env = QueryDB.QueryAnswered (Some e) rs).
Proof.
  intros Hl. unfold RunstatsV1.RunCollector, RunstatsV1.init, RunstatsV1.load.
  cbn [go_bind]. rewrite Hl. cbn [go_bind RunstatsV1.store RunstatsV1.cells].
  rewrite lookup_insert_eq. cbn [go_bind].
  unfold RunstatsV1.newStatsSender, RunstatsV1.newClient.
  destruct (RunstatsV1.http_ok env _); simpl.
  - destruct (RunstatsV1.create_db env) as [e|[e|] rs] eqn:Ec,
      (RunstatsV1.precision_ok env _);
      simpl; eexists; (split; [reflexivity|]); simpl;
      (split; [reflexivity|]); (split; [split; congruence|]);
      intros Hin; eauto;
      repeat (destruct Hin as [Hin|Hin]; try discriminate); done.
  - eexists; split; [reflexivity|]. simpl. split; [reflexivity|].
    split; [split; congruence|]. intros [].
Qed.

Lemma runcollector_v1_outcome_witness :
  RunstatsV1.cells zero_heap_v1 !! 0%nat = Some RunstatsV1.zero_Config /\
  exists r, RunstatsV1.RunCollector unreachable_env (Some 0%nat) zero_heap_v1 = Ok r /\
    RunstatsV1.rc_err r = None.
Proof.
  split; [reflexivity|].
  destruct (runcollector_v1_outcome unreachable_env zero_heap_v1 0%nat
              RunstatsV1.zero_Config eq_refl) as (r & Hr & He & _).
  exists r. split; [exact Hr|]. rewrite He. reflexivity.
Defined.

(** ** [queryDB] in the startup of the v1 sender *)

(** X7: once [NewHTTPClient] accepts the configuration, [RunCollector]
    logs the [CREATE DATABASE] step exactly when the server answers it
    with an error. A [Query] that fails at the transport level (no server)
    is never logged, because [queryDB] leaves its named [err] nil. *)
Theorem runcollector_create_db_logged (env : RunstatsV1.Env) (h : RunstatsV1.Heap)
    (l : nat) (c : RunstatsV1.Config) :
  RunstatsV1.cells h !! l = Some c ->
  RunstatsV1.http_ok env
    (RunstatsV1.http_config (RunstatsV1.fill (RunstatsV1.hostname env) c)) = true ->
  exists r, RunstatsV1.RunCollector env (Some l) h = Ok r /\
    (In RunstatsV1.LogCreateDatabase (RunstatsV1.rc_logs r) <->
       exists e rs, RunstatsV1.create_db env = QueryDB.QueryAnswered (Some e) rs).
Proof.
  intros Hl Hok. unfold RunstatsV1.RunCollector, RunstatsV1.init, RunstatsV1.load.
  cbn [go_bind]. rewrite Hl. cbn [go_bind RunstatsV1.store RunstatsV1.cells].
  rewrite lookup_insert_eq. cbn [go_bind].
  unfold RunstatsV1.newStatsSender, RunstatsV1.newClient. rewrite Hok. simpl.
  destruct (RunstatsV1.create_db env) as [e|[e|] rs] eqn:Ec,
    (RunstatsV1.precision_ok env _); simpl;
    eexists; (split; [reflexivity|]); simpl; split;
    try (intros; eauto; fail);
    try (intros (? & ? & ?); discriminate);
    intros Hin; repeat (destruct Hin as [Hin|Hin]; try discriminate); done.
Qed.

(** A server that answers [CREATE DATABASE] with an error. *)
Definition create_db_error_env : RunstatsV1.Env :=
  RunstatsV1.mkEnv (Some "host") (fun _ => true) true
    (QueryDB.QueryAnswered (Some tt) []) (fun _ => true).

Lemma runcollector_create_db_logged_witness :
  RunstatsV1.cells zero_heap_v1 !! 0%nat = Some RunstatsV1.zero_Config /\
  exists r, RunstatsV1.RunCollector create_db_error_env (Some 0%nat) zero_heap_v1 = Ok r /\
    In RunstatsV1.LogCreateDatabase (RunstatsV1.rc_logs r).
Proof.
  split; [reflexivity|].
  destruct (runcollector_create_db_logged create_db_error_env zero_heap_v1 0%nat
              RunstatsV1.zero_Config eq_refl eq_refl) as (r & Hr & Hiff).
  exists r. split; [exact Hr|]. apply Hiff. exists tt, []. reflexivity.
Defined.

(** ** [Config.init] *)

Lemma str_default_nonempty (x d : string) :
  String.eqb d "" = false -> String.eqb (if String.eqb x "" then d else x) "" = false.
Proof. intros Hd. destruct (String.eqb x "") eqn:E; [exact Hd|exact E]. Qed.

Lemma z_default_nonzero (x d : Z) :
  Z.eqb d 0 = false -> Z.eqb (if Z.eqb x 0 then d else x) 0 = false.
Proof. intros Hd. destruct (Z.eqb x 0) eqn:E; [exact Hd|exact E]. Qed.

Lemma measurement_nonempty (m : string) (hn : option string) :
  String.eqb (if String.eqb m "" then
                match hn with
                | None => String.append RunstatsV1.defaultMeasurement ".unknown"
                | Some h => String.append RunstatsV1.defaultMeasurement (String.append "." h)
                end
              else m) "" = false.
Proof. destruct (String.eqb m "") eqn:E; [destruct hn; reflexivity|exact E]. Qed.

Lemma fill_fixed_v1 (hn : option string) (c : RunstatsV1.Config) :
  String.eqb (RunstatsV1.Database c) "" = false ->
  String.eqb (RunstatsV1.Addr c) "" = false ->
  String.eqb (RunstatsV1.Measurement c) "" = false ->
  Z.eqb (RunstatsV1.CollectionInterval c) 0 = false ->
  Z.eqb (RunstatsV1.BatchInterval c) 0 = false ->
  Z.eqb (RunstatsV1.PingInterval c) 0 = false ->
  RunstatsV1.CLogger c <> RunstatsV1.LoggerNil ->
  RunstatsV1.fill hn c = c.
Proof.
  destruct c; simpl; intros H1 H2 H3 H4 H5 H6 H7.
  unfold RunstatsV1.fill; simpl. rewrite H1, H2, H3, H4, H5, H6.
  destruct CLogger; congruence.
Qed.

Lemma fill_idem_v1 (hn hn' : option string) (c : RunstatsV1.Config) :
  RunstatsV1.fill hn (RunstatsV1.fill hn' c) = RunstatsV1.fill hn' c.
Proof.
  apply fill_fixed_v1; unfold RunstatsV1.fill; simpl.
  - apply str_default_nonempty; reflexivity.
  - apply str_default_nonempty; reflexivity.
  - apply measurement_nonempty.
  - apply z_default_nonzero; reflexivity.
  - apply z_default_nonzero; reflexivity.
  - apply z_default_nonzero; reflexivity.
  - destruct (RunstatsV1.CLogger c); discriminate.
Qed.

Lemma fill_fixed_v2 (hn : option string) (c : MetricsV2.Config) :
  String.eqb (MetricsV2.Bucket c) "" = false ->
  String.eqb (MetricsV2.Addr c) "" = false ->
  String.eqb (MetricsV2.Measurement c) "" = false ->
  Z.eqb (MetricsV2.CollectionInterval c) 0 = false ->
  Z.eqb (MetricsV2.FlushInterval c) 0 = false ->
  MetricsV2.fill hn c = c.
Proof.
  destruct c; simpl; intros H1 H2 H3 H4 H5.
  unfold MetricsV2.fill; simpl. rewrite H1, H2, H3, H4, H5. reflexivity.
Qed.

Lemma fill_idem_v2 (hn hn' : option string) (c : MetricsV2.Config) :
  MetricsV2.fill hn (MetricsV2.fill hn' c) = MetricsV2.fill hn' c.
Proof.
  apply fill_fixed_v2; unfold MetricsV2.fill; simpl.
  - apply str_default_nonempty; reflexivity.
  - apply str_default_nonempty; reflexivity.
  - apply measurement_nonempty.
  - apply z_default_nonzero; reflexivity.
  - apply z_default_nonzero; reflexivity.
Qed.

(** X8: [init] on a non-nil [Config] is idempotent in both variants:
    running it a second time, even with another host name, leaves the
    heap as the first run left it, since every field it defaults is
    non-empty (non-zero, non-nil) afterwards. *)
Theorem config_init_idempotent (hn hn' : option string) :
  (forall (h : RunstatsV1.Heap) (l : nat) (c : RunstatsV1.Config),
     RunstatsV1.cells h !! l = Some c ->
     exists h1, RunstatsV1.init hn (Some l) h = Ok h1 /\
       RunstatsV1.init hn' (Some l) h1 = Ok h1) /\
  (forall (h : MetricsV2.Heap) (l : nat) (c : MetricsV2.Config),
     MetricsV2.cells h !! l = Some c ->
     exists h1, MetricsV2.init hn (Some l) h = Ok h1 /\
       MetricsV2.init hn' (Some l) h1 = Ok h1).
Proof.
  split.
  - intros h l c Hl. unfold RunstatsV1.init, RunstatsV1.load. simpl. rewrite Hl.
    eexists; split; [reflexivity|]. simpl. rewrite lookup_insert_eq. simpl.
    rewrite fill_idem_v1, insert_insert_eq. reflexivity.
  - intros h l c Hl. unfold MetricsV2.init, MetricsV2.load. simpl. rewrite Hl.
    eexists; split; [reflexivity|]. simpl. rewrite lookup_insert_eq. simpl.
    rewrite fill_idem_v2, insert_insert_eq. reflexivity.
Qed.

Lemma config_init_idempotent_witness :
  RunstatsV1.cells zero_heap_v1 !! 0%nat = Some RunstatsV1.zero_Config /\
  exists h1, RunstatsV1.init None (Some 0%nat) zero_heap_v1 = Ok h1 /\
    RunstatsV1.init (Some "host") (Some 0%nat) h1 = Ok h1.
Proof.
  split; [reflexivity|].
  exact (proj1 (config_init_idempotent None (Some "host")) zero_heap_v1 0%nat
           RunstatsV1.zero_Config eq_refl).
Defined.

(** X9: in v1, [init] on a nil receiver never panics, writes only the
    freshly allocated [Config] (which receives the defaults), and leaves
    every other cell of the heap as it was: the caller's objects are
    untouched and the defaults are unreachable from the caller. *)
Theorem config_init_nil_v1_frame (hn : option string) (h : RunstatsV1.Heap) :
  exists h', RunstatsV1.init hn None h = Ok h' /\
    RunstatsV1.next h' = S (RunstatsV1.next h) /\
    RunstatsV1.cells h' !! RunstatsV1.next h = Some (RunstatsV1.fill hn RunstatsV1.zero_Config) /\
    (forall l, l <> RunstatsV1.next h -> RunstatsV1.cells h' !! l = RunstatsV1.cells h !! l).
Proof.
  unfold RunstatsV1.init, RunstatsV1.alloc, RunstatsV1.load. simpl.
  rewrite lookup_insert_eq. simpl.
  eexists; split; [reflexivity|]. simpl.
  split; [reflexivity|]. split; [rewrite lookup_insert_eq; reflexivity|].
  intros l Hl. rewrite !lookup_insert_ne by congruence. reflexivity.
Qed.

(** ** Integer conversions of [collectMemStats] *)

(** X10: [int64(x)] of a uint64 and [int32(x)] of a uint32 always land in
    the signed range, keep the bit pattern (the value modulo 2^64, resp.
    2^32, is [x]), and are negative exactly for the upper half of the
    unsigned range. *)
Theorem go_int_conversions :
  (forall x, GoInt.is_u64 x ->
     - GoInt.two63 <= GoInt.int64_of_uint64 x < GoInt.two63 /\
     GoInt.int64_of_uint64 x mod GoInt.two64 = x /\
     (GoInt.int64_of_uint64 x < 0 <-> GoInt.two63 <= x)) /\
  (forall x, GoInt.is_u32 x ->
     - GoInt.two31 <= GoInt.int32_of_uint32 x < GoInt.two31 /\
     GoInt.int32_of_uint32 x mod GoInt.two32 = x /\
     (GoInt.int32_of_uint32 x < 0 <-> GoInt.two31 <= x)).
Proof.
  unfold GoInt.is_u64, GoInt.is_u32, GoInt.int64_of_uint64, GoInt.int32_of_uint32,
    GoInt.two64, GoInt.two63, GoInt.two32, GoInt.two31.
  split; intros x Hx; [destruct (Z.ltb_spec x (2 ^ 63))|destruct (Z.ltb_spec x (2 ^ 31))].
  - split; [lia|]. split; [apply Z.mod_small; lia|lia].
  - split; [lia|]. split; [|lia].
    replace (x - 2 ^ 64) with (x + (-1) * 2 ^ 64) by lia.
    rewrite Z.mod_add by lia. apply Z.mod_small; lia.
  - split; [lia|]. split; [apply Z.mod_small; lia|lia].
  - split; [lia|]. split; [|lia].
    replace (x - 2 ^ 32) with (x + (-1) * 2 ^ 32) by lia.
    rewrite Z.mod_add by lia. apply Z.mod_small; lia.
Qed.

Lemma go_int_conversions_witness :
  GoInt.int64_of_uint64 (2 ^ 64 - 1) = -1 /\ GoInt.int32_of_uint32 (2 ^ 31) = - 2 ^ 31 /\
  (GoInt.int64_of_uint64 (2 ^ 64 - 1) < 0 <-> GoInt.two63 <= 2 ^ 64 - 1).
Proof.
  split; [reflexivity|]. split; [reflexivity|].
  apply (proj1 go_int_conversions (2 ^ 64 - 1)).
  unfold GoInt.is_u64, GoInt.two64; lia.
Defined.

(** ** [Fields.Values] and the JSON encoding *)

(** X11: the map returned by [Values()] and the JSON encoding of the same
    [Fields] carry the same key/value pairs: a key maps to a value in
    [Values()] exactly when the JSON object has that member. *)
Theorem values_agree_with_json (f : Collector.Fields) (k : string) (v : Collector.Value) :
  Collector.Values f !! k = Some v <-> In (k, v) (Collector.fields_json f).
Proof.
  unfold Collector.Values.
  rewrite <- elem_of_list_to_map.
  2:{ assert (E : (Collector.values_list f).*1 = (Collector.values_list Collector.zero_Fields).*1)
        by reflexivity.
      rewrite E. apply (bool_decide_unpack _); vm_compute; reflexivity. }
  rewrite list_elem_of_In.
  assert (P : Permutation (Collector.values_list f) (Collector.fields_json f)).
  { unfold Collector.values_list, Collector.fields_json. solve_Permutation. }
  split; apply Permutation_in; [exact P|symmetry; exact P].
Qed.

(** ** Collector wiring in [RunCollector] *)

(** X12: the collector [RunCollector] starts (v1 and v2) ticks every
    resolved [CollectionInterval] and collects exactly the groups the
    configuration does not disable: a disabled group stays zero, an
    enabled one is read from the runtime. *)
Theorem runcollector_collector_wiring (hn : option string) (rt : Collector.Runtime) :
  length (Collector.m_PauseNs (Collector.rt_MemStats rt)) = 256%nat ->
  (forall c : RunstatsV1.Config,
     let cfg := RunstatsV1.fill hn c in
     Collector.PauseDur (Wiring.collector_v1 cfg) = RunstatsV1.CollectionInterval cfg /\
     exists f, Collector.CollectStats (Wiring.collector_v1 cfg) rt = Some f /\
       Collector.cpu_part f =
         (if RunstatsV1.DisableCpu c then Collector.cpu_part Collector.zero_Fields
          else [Collector.rt_NumCPU rt; Collector.rt_NumGoroutine rt; Collector.rt_NumCgoCall rt]) /\
       (RunstatsV1.DisableMem c = true ->
          Collector.mem_part f = Collector.mem_part Collector.zero_Fields)) /\
  (forall c : MetricsV2.Config,
     let cfg := MetricsV2.fill hn c in
     Collector.PauseDur (Wiring.collector_v2 cfg) = MetricsV2.CollectionInterval cfg /\
     exists f, Collector.CollectStats (Wiring.collector_v2 cfg) rt = Some f /\
       Collector.cpu_part f =
         (if MetricsV2.DisableCpu c then Collector.cpu_part Collector.zero_Fields
          else [Collector.rt_NumCPU rt; Collector.rt_NumGoroutine rt; Collector.rt_NumCgoCall rt]) /\
       (MetricsV2.DisableMem c = true ->
          Collector.mem_part f = Collector.mem_part Collector.zero_Fields)).
Proof.
  intros Hlen.
  destruct (collectMemStats_some (Collector.rt_MemStats rt) Collector.zero_Fields Hlen)
    as [p Hp].
  split; intros c cfg; (split; [reflexivity|]);
    unfold cfg, Wiring.collector_v1, Wiring.collector_v2, Collector.CollectStats; simpl.
  - unfold Collector.collectMemStats. rewrite Hp.
    destruct (RunstatsV1.DisableMem c), (RunstatsV1.DisableCpu c); simpl;
      eexists; (split; [reflexivity|]); split; try reflexivity; intros; try discriminate;
      reflexivity.
  - unfold Collector.collectMemStats. rewrite Hp.
    destruct (MetricsV2.DisableMem c), (MetricsV2.DisableCpu c); simpl;
      eexists; (split; [reflexivity|]); split; try reflexivity; intros; try discriminate;
      reflexivity.
Qed.

Lemma runcollector_collector_wiring_witness :
  length (Collector.m_PauseNs (Collector.rt_MemStats sample_runtime)) = 256%nat /\
  exists f, Collector.CollectStats (Wiring.collector_v1 (RunstatsV1.fill None RunstatsV1.zero_Config))
              sample_runtime = Some f.
Proof.
  split; [reflexivity|].
  destruct (proj1 (runcollector_collector_wiring None sample_runtime eq_refl)
              RunstatsV1.zero_Config) as (_ & f & Hf & _).
  exists f. exact Hf.
Defined.
